(** * Sales funnel planning dashboard: planned and actual series

    A shallow embedding of [app.py]: the planner [create_funnel_plan]
    (reverse funnel sizing, then one [np.linspace] ramp per stage) and
    the module-level loop that rebuilds the actual series from the
    entered data points.  Layout, widgets, chart and table are left
    out.

    Python floats are kept behind an interface, [Float64], with two
    instances.  [binary64] is IEEE 754 double precision as specified by
    the standard library's [SpecFloat]; concrete runs are evaluated in
    it bit for bit.  [ideal] reads every float operation as the exact
    rational operation; it is the arithmetic in which the laws of the
    planner (closed form and ordering of the final counts, monotone
    ramps) are proved for every input.  Rounding error and overflow of
    binary64 are outside those general statements; what binary64 does
    on the inputs the dashboard offers is checked by evaluation at the
    end of the file.

    A data frame column is a sequence of numbers: the change of a
    pandas column from int64 to float64 on assignment is not
    modelled. *)

From Stdlib Require Import ZArith QArith Qround Qreduction Qpower.
From Stdlib Require Import List String Bool Lia Lqa SpecFloat.
Import ListNotations.

Local Open Scope Z_scope.

(** ** Python exceptions and results *)

Inductive exception : Type :=
| ZeroDivisionError   (* float division by zero *)
| OverflowError       (* round(inf), or an int too large for a float *)
| ValueError          (* round(nan), negative [num], length mismatch *)
| KeyError.           (* missing dictionary key *)

Inductive result (A : Type) : Type :=
| Ok (a : A)
| Raise (e : exception).
Arguments Ok {A} a.
Arguments Raise {A} e.

Definition bind {A B : Type} (m : result A) (k : A -> result B) : result B :=
  match m with
  | Ok a => k a
  | Raise e => Raise e
  end.

Notation "x <- m ;; k" := (bind m (fun x => k))
  (at level 61, m at next level, right associativity).

Fixpoint mapM {A B : Type} (f : A -> result B) (l : list A) : result (list B) :=
  match l with
  | [] => Ok []
  | a :: l' => b <- f a ;; bs <- mapM f l' ;; Ok (b :: bs)
  end.

(** ** Python dictionaries with string keys

    Insertion ordered: assigning to a present key keeps its position,
    assigning to a new key appends it. *)

Definition dict (V : Type) : Type := list (string * V).

Fixpoint dict_get {V : Type} (d : dict V) (k : string) : result V :=
  match d with
  | [] => Raise KeyError
  | (k', v) :: d' => if String.eqb k' k then Ok v else dict_get d' k
  end.

Fixpoint dict_set {V : Type} (d : dict V) (k : string) (v : V) : dict V :=
  match d with
  | [] => [(k, v)]
  | (k', v') :: d' =>
      if String.eqb k' k then (k', v) :: d' else (k', v') :: dict_set d' k v
  end.

(** ** The float interface *)

Class Float64 (F : Type) : Type := {
  (** conversion of an integer, rounded to the nearest float *)
  of_int : Z -> F;
  fadd : F -> F -> F;
  fsub : F -> F -> F;
  fmul : F -> F -> F;
  fdiv : F -> F -> F;
  (** [x == 0.0] *)
  fis_zero : F -> bool;
  fis_inf : F -> bool;
  fis_nan : F -> bool;
  (** nearest integer of a finite value, ties to the even one *)
  fround : F -> Z
}.

(** Nearest integer, ties to even: what Python's one-argument [round]
    returns for a float. *)
Definition round_half_even (q : Q) : Z :=
  let f := Qfloor q in
  match Qcompare (q - inject_Z f) (1 # 2) with
  | Lt => f
  | Gt => f + 1
  | Eq => if Z.even f then f else f + 1
  end.

(** *** Exact rational arithmetic *)

#[export] Instance ideal : Float64 Q := {|
  of_int := inject_Z;
  fadd := fun x y => Qred (x + y);
  fsub := fun x y => Qred (x - y);
  fmul := fun x y => Qred (x * y);
  fdiv := fun x y => Qred (x / y);
  fis_zero := fun x => Qeq_bool x 0;
  fis_inf := fun _ => false;
  fis_nan := fun _ => false;
  fround := round_half_even
|}.

(** *** IEEE 754 binary64 *)

Definition prec : Z := 53.
Definition emax : Z := 1024.

(** The rational value of a finite double. *)
Definition SF2Q (x : spec_float) : Q :=
  match x with
  | S754_finite s m e =>
      let v := (inject_Z (Zpos m) * Qpower 2 e)%Q in
      if s then Qopp v else v
  | _ => 0%Q
  end.

#[export] Instance binary64 : Float64 spec_float := {|
  of_int := fun z => binary_normalize prec emax z 0 false;
  fadd := SFadd prec emax;
  fsub := SFsub prec emax;
  fmul := SFmul prec emax;
  fdiv := SFdiv prec emax;
  fis_zero := fun x => match x with S754_zero _ => true | _ => false end;
  fis_inf := fun x => match x with S754_infinity _ => true | _ => false end;
  fis_nan := fun x => match x with S754_nan => true | _ => false end;
  fround := fun x => round_half_even (SF2Q x)
|}.

(** The double [m * 2^e], for writing literals. *)
Definition b64 (m e : Z) : spec_float := binary_normalize prec emax m e false.

(** ** Python numbers: [int] and [float] *)

Section Program.

Context {F : Type} `{Float64 F}.

Inductive pynum : Type :=
| PyInt (z : Z)
| PyFloat (x : F).

(** [float(z)] for an int operand of a mixed operation. *)
Definition py_float (z : Z) : result F :=
  let x := of_int z in
  if fis_inf x then Raise OverflowError else Ok x.

Definition to_float (a : pynum) : result F :=
  match a with
  | PyInt z => py_float z
  | PyFloat x => Ok x
  end.

(** [a * b] *)
Definition py_mul (a b : pynum) : result pynum :=
  match a, b with
  | PyInt x, PyInt y => Ok (PyInt (x * y))
  | _, _ => x <- to_float a ;; y <- to_float b ;; Ok (PyFloat (fmul x y))
  end.

(** [a / b]: true division, always a float. *)
Definition py_truediv (a b : pynum) : result pynum :=
  x <- to_float a ;;
  y <- to_float b ;;
  if fis_zero y then Raise ZeroDivisionError else Ok (PyFloat (fdiv x y)).

(** [int(round(a))] *)
Definition py_round (a : pynum) : result Z :=
  match a with
  | PyInt z => Ok z
  | PyFloat x =>
      if fis_nan x then Raise ValueError
      else if fis_inf x then Raise OverflowError
      else Ok (fround x)
  end.

(** ** numpy *)

(** [np.arange(n)]: the integers [0 .. n-1], empty when [n <= 0]. *)
Definition arange (n : Z) : list Z :=
  map Z.of_nat (seq 0 (Z.to_nat n)).

(** [y[-1] = v] on a non-empty array. *)
Fixpoint set_last {A : Type} (y : list A) (v : A) : list A :=
  match y with
  | [] => []
  | [_] => [v]
  | a :: y' => a :: set_last y' v
  end.

(** [np.linspace(start, stop, num)] for integer [start] and [stop] and
    [num >= 0], as numpy computes it: both ends are converted to
    floats, [delta = stop - start], [step = delta / div] with
    [div = num - 1], the samples are [arange(num) * step + start], and
    the last one is overwritten by [stop] when [num > 1].  When [step]
    is zero numpy divides first and multiplies after; when [num <= 1]
    there is no step and the samples are [arange(num) * delta + start]. *)
Definition samples (start stop num : Z) : list F :=
  let div := num - 1 in
  let delta := fsub (of_int stop) (of_int start) in
  let y := map of_int (arange num) in
  let y :=
    if 0 <? div then
      let step := fdiv delta (of_int div) in
      if fis_zero step
      then map (fun v => fmul (fdiv v (of_int div)) delta) y
      else map (fun v => fmul v step) y
    else map (fun v => fmul v delta) y in
  let y := map (fun v => fadd v (of_int start)) y in
  if 1 <? num then set_last y (of_int stop) else y.

(** A negative [num] is refused. *)
Definition linspace (start stop num : Z) : result (list F) :=
  if num <? 0 then Raise ValueError else Ok (samples start stop num).

(** ** The planner *)

Definition stages : list string :=
  ["Expression of Interest"; "Conversations"; "Deep Conversations";
   "Proposals"; "Wins"]%string.

(** The loop of lines 21-23 over the stages still to visit: it stores
    [target_wins * multiplier] under the stage, then divides the
    multiplier by the conversion rate. *)
Fixpoint count_loop (todo : list string) (target_wins : Z) (conversion_rate : F)
    (multiplier : pynum) (final_counts : dict pynum) : result (dict pynum) :=
  match todo with
  | [] => Ok final_counts
  | stage :: todo' =>
      v <- py_mul (PyInt target_wins) multiplier ;;
      m <- py_truediv multiplier (PyFloat conversion_rate) ;;
      count_loop todo' target_wins conversion_rate m (dict_set final_counts stage v)
  end.

(** The float [multiplier] after [k] divisions by the conversion rate. *)
Fixpoint multiplier_after (conversion_rate : F) (k : nat) : F :=
  match k with
  | O => of_int 1
  | S k' => fdiv (multiplier_after conversion_rate k') conversion_rate
  end.

(** Lines 19-24: the final count of every stage, rounded once after the
    loop has finished. *)
Definition final_counts (target_wins : Z) (conversion_rate : F) : result (dict Z) :=
  raw <- count_loop (rev stages) target_wins conversion_rate (PyInt 1) [] ;;
  mapM (fun kv => c <- py_round (snd kv) ;; Ok (fst kv, c)) raw.

(** A data frame: the name and content of the time column, then the
    stage columns in insertion order. *)
Record DataFrame : Type := {
  time_name : string;
  time : list Z;
  columns : dict (list F)
}.

Definition create_funnel_plan (duration : string) (total_periods target_wins : Z)
    (conversion_rate : F) : result (DataFrame * string) :=
  counts <- final_counts target_wins conversion_rate ;;
  let time_label := if String.eqb duration "weekly" then "Week"%string else "Day"%string in
  let time := arange total_periods in
  data <- mapM (fun stage =>
                  c <- dict_get counts stage ;;
                  y <- linspace 0 c total_periods ;;
                  Ok (stage, y)) stages ;;
  Ok ({| time_name := time_label; time := time; columns := data |}, time_label).

(** ** The actual series (module level, lines 96-107) *)

(** The entries selected by [mask] take [values] in order. *)
Fixpoint put_masked (mask : list bool) (values col : list F) : list F :=
  match mask, col with
  | true :: mask', c :: col' =>
      match values with
      | v :: values' => v :: put_masked mask' values' col'
      | [] => c :: col'
      end
  | false :: mask', c :: col' => c :: put_masked mask' values col'
  | _, _ => col
  end.

(** [frame.loc[mask, stage] = values] for a sequence of values: pandas
    takes it when there are as many values as selected rows, and
    raises ValueError otherwise.  A data point whose period lies on the
    axis always has as many. *)
Definition loc_set_list (mask : list bool) (values col : list F) : result (list F) :=
  if Nat.eqb (count_occ bool_dec mask true) (List.length values)
  then Ok (put_masked mask values col)
  else Raise ValueError.

(** [frame.loc[mask, stage] = v] for a scalar. *)
Fixpoint loc_set_scalar (mask : list bool) (v : F) (col : list F) : list F :=
  match mask, col with
  | b :: mask', c :: col' => (if b then v else c) :: loc_set_scalar mask' v col'
  | _, _ => col
  end.

(** Lines 104-107 for one data point and one stage. *)
Definition apply_point (time : list Z) (point : Z * dict Z)
    (cols : dict (list F)) (stage : string) : result (dict (list F)) :=
  let '(t, values) := point in
  val <- dict_get values stage ;;
  linear_vals <- (if 0 <? t then linspace 0 val (t + 1) else Ok [of_int val]) ;;
  col <- dict_get cols stage ;;
  col <- loc_set_list (map (fun p => p <=? t) time) linear_vals col ;;
  Ok (dict_set cols stage (loc_set_scalar (map (fun p => t <? p) time) (of_int val) col)).

Fixpoint foldM {A B : Type} (f : B -> A -> result B) (l : list A) (b : B) : result B :=
  match l with
  | [] => Ok b
  | a :: l' => b' <- f b a ;; foldM f l' b'
  end.

(** Lines 97-107: every stage column starts at 0 over the time axis of
    the plan, then each data point is applied in turn, stage by stage. *)
Definition actual_df (time_label : string) (time : list Z)
    (actual_data : list (Z * dict Z)) : result DataFrame :=
  let zeros := map (fun _ => of_int 0) time in
  let cols := fold_left (fun cols stage => dict_set cols stage zeros) stages [] in
  cols <- foldM (fun cols point => foldM (apply_point time point) stages cols)
            actual_data cols ;;
  Ok {| time_name := time_label; time := time; columns := cols |}.

(** What one data point writes into the column of one stage, whatever
    the column held before: the values of the ramp on the periods up to
    [t], the flat value after them.  ValueError when the ramp and the
    periods up to [t] differ in number. *)
Definition point_column (time : list Z) (point : Z * dict Z) (stage : string)
    : result (list F) :=
  let '(t, values) := point in
  val <- dict_get values stage ;;
  linear_vals <- (if 0 <? t then linspace 0 val (t + 1) else Ok [of_int val]) ;;
  col <- loc_set_list (map (fun p => p <=? t) time) linear_vals
           (map (fun _ => of_int 0) time) ;;
  Ok (loc_set_scalar (map (fun p => t <? p) time) (of_int val) col).

(** What one data point writes into the frame, stage by stage. *)
Definition point_columns (time : list Z) (point : Z * dict Z)
    : result (dict (list F)) :=
  mapM (fun stage => col <- point_column time point stage ;; Ok (stage, col)) stages.

(** A frame with one column per stage, in the order of the stages, all
    of the same length. *)
Definition frame_shape (len : nat) (cols : dict (list F)) : Prop :=
  map fst cols = stages /\ Forall (fun kv => List.length (snd kv) = len) cols.

(** The ramp to [v] over the periods [0 .. t] followed by the flat
    value [v] up to the end of an axis of [n] periods. *)
Definition ramp_then_flat (n t v : Z) : list F :=
  (if 0 <? t then samples 0 v (t + 1) else [of_int v])
  ++ repeat (of_int v) (Z.to_nat (n - 1 - t)).

End Program.

Arguments pynum F : clear implicits.
Arguments DataFrame F : clear implicits.

(** ** Well-formed data points *)

(** The data point gives a value to every stage. *)
Definition complete (values : dict Z) : bool :=
  forallb (fun stage => match dict_get values stage with Ok _ => true | Raise _ => false end)
    stages.

(** A well-formed data point: its period lies on the axis and every
    stage has a value. *)
Definition valid_point (total_periods : Z) (point : Z * dict Z) : Prop :=
  0 <= fst point < total_periods /\ complete (snd point) = true.

(** A data point's values: the same value at every stage. *)
Definition same_value (v : Z) : dict Z := map (fun stage => (stage, v)) stages.

(** ** Doubles for the concrete runs *)

(** The doubles 0.5 and -0.5. *)
Definition half64 : spec_float := b64 1 (-1).

(** The integers [lo, lo + 1, ...], [len] of them. *)
Definition range (lo : Z) (len : nat) : list Z :=
  map (fun i => lo + Z.of_nat i) (seq 0 len).

(** The double nearest to the fraction [p / q] of two small integers. *)
Definition nearest64 (p q : Z) : spec_float := fdiv (of_int p) (of_int q).

(** A series of doubles that never decreases. *)
Fixpoint nondecreasing (y : list spec_float) : bool :=
  match y with
  | a :: (b :: _) as y' => SFleb a b && nondecreasing y'
  | _ => true
  end.

(** A planned series of [n] doubles from 0 to the count [c]: it never
    decreases, starts at 0.0 and ends at [c]. *)
Definition ramp_ok (c n : Z) : bool :=
  let y := samples 0 c n in
  nondecreasing y
  && match y with a :: _ => SFeqb a (of_int 0) | [] => false end
  && SFeqb (last y S754_nan) (of_int c)
  && Nat.eqb (List.length y) (Z.to_nat n).

(** Every stage of the plan for [w] wins at the rate [k / 20] over [n]
    periods has such a series. *)
Definition plan_ok (w k n : Z) : bool :=
  match final_counts w (nearest64 k 20) with
  | Ok counts => forallb (fun kv => ramp_ok (snd kv) n) counts
  | Raise _ => false
  end.

(** ** The chart (lines 35-63) *)

(** [color_map], lines 10-16. *)
Definition color_map : dict string :=
  [("Expression of Interest", "#1f77b4"); ("Conversations", "#ff7f0e");
   ("Deep Conversations", "#2ca02c"); ("Proposals", "#d62728");
   ("Wins", "#9467bd")]%string.

Section Chart.

Context {F : Type} `{Float64 F}.

(** A column taken out of a frame: the time column holds integers, a
    stage column floats. *)
Inductive column : Type :=
| IntColumn (v : list Z)
| FloatColumn (v : list F).

Definition column_length (c : column) : nat :=
  match c with
  | IntColumn v => List.length v
  | FloatColumn v => List.length v
  end.

(** [frame[name]]: KeyError when the frame has no such column. *)
Definition frame_get (df : DataFrame F) (name : string) : result column :=
  if String.eqb name (time_name df) then Ok (IntColumn (time df))
  else col <- dict_get (columns df) name ;; Ok (FloatColumn col).

(** [name in frame.columns] *)
Definition frame_has (df : DataFrame F) (name : string) : bool :=
  String.eqb name (time_name df)
  || existsb (fun kv => String.eqb (fst kv) name) (columns df).

(** A frame with one column per stage, in the order of the stages, and
    a time column that is not named like a stage. *)
Definition stage_frame (df : DataFrame F) : Prop :=
  map fst (columns df) = stages /\ ~ In (time_name df) stages.

(** [go.Scatter(...)] with the arguments the chart gives it; the
    planned traces have no marker. *)
Record Scatter : Type := {
  trace_x : column;
  trace_y : column;
  trace_mode : string;
  trace_name : string;
  line_color : string;
  line_dash : string;
  line_width : Z;
  trace_marker : option (Z * string);
  trace_hoverinfo : string
}.

(** The arguments of [fig.update_layout]; the decimal constants are
    kept as fractions. *)
Record Layout : Type := {
  title_text : string;
  title_x : Q;
  title_font_size : Z;
  xaxis_title : string;
  yaxis_title : string;
  hovermode : string;
  template : string;
  height : Z;
  margin : Z * Z * Z * Z;
  legend_orientation : string;
  legend_y : Q;
  legend_x : Q
}.

(** A figure: its traces in the order they were added, and its layout. *)
Record Figure : Type := {
  fig_data : list Scatter;
  fig_layout : Layout
}.

(** Lines 38-44: the planned trace of a stage. *)
Definition planned_trace (df : DataFrame F) (time_label stage color : string)
    : result Scatter :=
  px <- frame_get df time_label ;;
  py <- frame_get df stage ;;
  Ok {| trace_x := px; trace_y := py; trace_mode := "lines";
        trace_name := "Planned - " ++ stage;
        line_color := color; line_dash := "dash"; line_width := 3;
        trace_marker := None; trace_hoverinfo := "x+y" |}.

(** Lines 46-52: the actual trace of a stage. *)
Definition actual_trace (adf : DataFrame F) (time_label stage color : string)
    : result Scatter :=
  ax <- frame_get adf time_label ;;
  ay <- frame_get adf stage ;;
  Ok {| trace_x := ax; trace_y := ay; trace_mode := "lines+markers";
        trace_name := "Actual - " ++ stage;
        line_color := color; line_dash := "solid"; line_width := 4;
        trace_marker := Some (8, "circle-open"%string); trace_hoverinfo := "x+y" |}.

(** The body of the loop of lines 37-52 for one stage: the planned
    trace is added, then the actual trace when an actual frame is given
    and has a column for the stage. *)
Definition add_stage (df : DataFrame F) (time_label : string)
    (actual : option (DataFrame F)) (traces : list Scatter) (stage : string)
    : result (list Scatter) :=
  color <- dict_get color_map stage ;;
  planned <- planned_trace df time_label stage color ;;
  let traces := traces ++ [planned] in
  match actual with
  | Some adf =>
      if frame_has adf stage
      then trace <- actual_trace adf time_label stage color ;; Ok (traces ++ [trace])
      else Ok traces
  | None => Ok traces
  end.

Definition plot_funnel_comparison (df : DataFrame F) (time_label : string)
    (actual : option (DataFrame F)) : result Figure :=
  traces <- foldM (add_stage df time_label actual) stages [] ;;
  Ok {| fig_data := traces;
        fig_layout :=
          {| title_text := "Planned vs Actual Sales Funnel";
             title_x := 1 # 2; title_font_size := 24;
             xaxis_title := time_label; yaxis_title := "Leads";
             hovermode := "x unified"; template := "plotly_white";
             height := 600; margin := (70, 70, 100, 70);
             legend_orientation := "h"; legend_y := 11 # 10; legend_x := 1 # 100 |} |}.

End Chart.

Arguments column F : clear implicits.
Arguments Scatter F : clear implicits.
Arguments Figure F : clear implicits.

(** ** The table (lines 112-117) *)

(** [np.rint]: the nearest integer as a float, ties to even; the sign
    of a zero result is the sign of the argument. *)
Class Rint (F : Type) : Type := {
  frint : F -> F
}.


#[export] Instance binary64_rint : Rint spec_float := {|
  frint := fun x =>
    match x with
    | S754_finite s _ _ =>
        let z := round_half_even (SF2Q x) in
        if z =? 0 then S754_zero s else binary_normalize prec emax z 0 false
    | _ => x
    end
|}.

Section Table.

Context {F : Type} `{Float64 F} `{Rint F}.

(** One entry of [series.round(1)] on floats, as numpy rounds to one
    decimal: multiply by 10, round to the nearest integer, divide by
    10. *)
Definition round1 (x : F) : F :=
  fdiv (frint (fmul x (of_int 10))) (of_int 10).

(** [series.round(1)]: integers are left as they are. *)
Definition series_round1 (c : column F) : column F :=
  match c with
  | IntColumn v => IntColumn v
  | FloatColumn v => FloatColumn (map round1 v)
  end.

(** Lines 115-117 for one stage: the rounded planned column, then the
    rounded actual column, each under its own name. *)
Definition add_pair (planned_df adf : DataFrame F) (combined : dict (column F))
    (stage : string) : result (dict (column F)) :=
  p <- frame_get planned_df stage ;;
  let combined := dict_set combined ("Planned - " ++ stage) (series_round1 p) in
  a <- frame_get adf stage ;;
  Ok (dict_set combined ("Actual - " ++ stage) (series_round1 a)).

(** Lines 114-117: the table of both frames, which share the period
    axis of the plan. *)
Definition combined (planned_df adf : DataFrame F) (time_label : string)
    : result (dict (column F)) :=
  axis <- frame_get planned_df time_label ;;
  foldM (add_pair planned_df adf) stages [(time_label, axis)].

End Table.

(** ** The data entry form and the page (lines 81-117) *)

Section Page.

Context {F : Type} `{Float64 F} `{Rint F}.

(** Lines 81-91: the data points read from the form.  [slider i] is
    the period chosen for point [i], [number_input stage i] the value
    entered for the stage. *)
Definition read_points (num_points : Z) (slider : Z -> Z)
    (number_input : string -> Z -> Z) : list (Z * dict Z) :=
  map (fun i =>
         (slider i,
          fold_left (fun stage_values stage =>
                       dict_set stage_values stage (number_input stage i))
            stages []))
    (arange num_points).

(** Lines 93-117: the plan, the actual frame on the time column of
    the plan, the chart of both and the table of both.  The label the
    planner returns names the time column of its frame, so
    [planned_df[time_label]] is that column. *)
Definition page (duration : string) (total_periods target_wins : Z)
    (conversion_rate : F) (actual_data : list (Z * dict Z))
    : result (Figure F * dict (column F)) :=
  plan <- create_funnel_plan duration total_periods target_wins conversion_rate ;;
  let '(planned_df, time_label) := plan in
  adf <- actual_df time_label (time planned_df) actual_data ;;
  fig <- plot_funnel_comparison planned_df time_label (Some adf) ;;
  table <- combined planned_df adf time_label ;;
  Ok (fig, table).

End Page.

(** * Properties *)

(** ** The final counts in exact arithmetic *)





Lemma final_counts_zero_rate64 (w : Z) (s : bool) :
  final_counts w (S754_zero s) = Raise ZeroDivisionError.
Proof. reflexivity. Qed.

(** ** Rounding to the nearest integer *)

Section Rounding.
Local Open Scope Q_scope.






End Rounding.

(** ** Arrays *)

Section Arrays.

Context {A : Type}.

Lemma set_last_length (y : list A) (v : A) : List.length (set_last y v) = List.length y.
Proof.
  induction y as [|a [|b y] IH]; [reflexivity|reflexivity|].
  change (set_last (a :: b :: y) v) with (a :: set_last (b :: y) v).
  simpl List.length in *. now rewrite IH.
Qed.

Lemma set_last_snoc (y : list A) (a v : A) : set_last (y ++ [a]) v = y ++ [v].
Proof.
  induction y as [|b y IH]; [reflexivity|].
  simpl app. destruct (y ++ [a]) as [|c l] eqn:E.
  - destruct y; discriminate.
  - change (set_last (b :: c :: l) v) with (b :: set_last (c :: l) v).
    now rewrite IH.
Qed.

End Arrays.

Lemma arange_length (n : Z) : List.length (arange n) = Z.to_nat n.
Proof. unfold arange. now rewrite length_map, length_seq. Qed.

Lemma arange_snoc (n : Z) : 1 <= n -> arange n = arange (n - 1) ++ [n - 1].
Proof.
  intros Hn. unfold arange.
  replace (Z.to_nat n) with (Z.to_nat (n - 1) + 1)%nat by lia.
  rewrite seq_app, map_app. simpl. now rewrite Z2Nat.id by lia.
Qed.

Lemma arange_nth_error (n : Z) (k : nat) :
  (k < Z.to_nat n)%nat -> nth_error (arange n) k = Some (Z.of_nat k).
Proof.
  intros Hk. unfold arange. rewrite nth_error_map, nth_error_seq.
  apply Nat.ltb_lt in Hk. now rewrite Hk.
Qed.

Section Samples.

Context {F : Type} `{Float64 F}.

Lemma samples_length (start stop num : Z) :
  List.length (samples start stop num) = Z.to_nat num.
Proof.
  unfold samples.
  destruct (1 <? num); rewrite ?set_last_length;
    destruct (0 <? num - 1); try destruct (fis_zero _);
    now rewrite !length_map, arange_length.
Qed.

(** The last of two or more samples is the end point itself. *)
Lemma samples_last (start stop num : Z) (d : F) :
  2 <= num -> last (samples start stop num) d = of_int stop.
Proof.
  intros Hn. unfold samples.
  replace (1 <? num) with true by (symmetry; apply Z.ltb_lt; lia).
  rewrite (arange_snoc num) by lia.
  destruct (0 <? num - 1); try destruct (fis_zero _);
    rewrite !map_app; simpl map; rewrite set_last_snoc; apply last_last.
Qed.

Lemma linspace_ok (start stop num : Z) :
  0 <= num -> linspace start stop num = Ok (samples start stop num).
Proof.
  intros Hn. unfold linspace.
  now replace (num <? 0) with false by (symmetry; apply Z.ltb_ge; lia).
Qed.

End Samples.

(** ** Samples in exact arithmetic *)

Section IdealSamples.
Local Open Scope Q_scope.

(** Every sample before the last is [stop * i / (num - 1)], and so is the last. *)
Lemma samples_ideal (stop num : Z) (k : nat) :
  (2 <= num)%Z -> (k < Z.to_nat num)%nat ->
  exists x, nth_error (samples 0 stop num) k = Some x /\
            x == inject_Z stop * inject_Z (Z.of_nat k) / inject_Z (num - 1).
Proof.
  intros Hn Hk.
  assert (Hdiv : ~ inject_Z (num - 1) == 0).
  { intros E. change 0 with (inject_Z 0) in E. apply -> inject_Z_injective in E. lia. }
  unfold samples.
  replace (1 <? num)%Z with true by (symmetry; apply Z.ltb_lt; lia).
  replace (0 <? num - 1)%Z with true by (symmetry; apply Z.ltb_lt; lia).
  rewrite (arange_snoc num) by lia.
  destruct (Nat.eq_dec k (Z.to_nat (num - 1))) as [Hlast|Hbefore].
  - exists (inject_Z stop). split.
    + destruct (fis_zero _); rewrite !map_app; cbn [map]; rewrite set_last_snoc;
        (rewrite nth_error_app2; rewrite !length_map, arange_length; [|lia]);
        subst k; now rewrite Nat.sub_diag.
    + subst k. rewrite Z2Nat.id by lia. field. exact Hdiv.
  - assert (Hk' : (k < Z.to_nat (num - 1))%nat) by lia.
    destruct (fis_zero _); rewrite !map_app; cbn [map]; rewrite set_last_snoc;
      (rewrite nth_error_app1; [|rewrite !length_map, arange_length; lia]);
      rewrite !nth_error_map, (arange_nth_error _ _ Hk'); cbn [option_map];
      eexists; (split; [reflexivity|]); cbn [fadd fsub fmul fdiv of_int ideal];
      rewrite !Qred_correct; change (inject_Z 0) with 0; field; exact Hdiv.
Qed.

(** The ramp of a data point at period [t > 0]: the sample of period
    [k] is [v * k / t]. *)
Lemma ramp_is_linear (t v : Z) (k : nat) :
  (0 < t)%Z -> (k <= Z.to_nat t)%nat ->
  exists x, nth_error (samples 0 v (t + 1)) k = Some x /\
            x == inject_Z v * inject_Z (Z.of_nat k) / inject_Z t.
Proof.
  intros Ht Hk.
  destruct (samples_ideal v (t + 1) k ltac:(lia) ltac:(lia)) as (x & Hx & Ex).
  exists x. split; [exact Hx|]. now replace (t + 1 - 1)%Z with t in Ex by lia.
Qed.



End IdealSamples.

(** ** The shape of the plan *)

Section Plan.

Context {F : Type} `{Float64 F}.

(** In every arithmetic, when the final counts are returned, each is
    the product of the wins and the multiplier of its stage, rounded
    once. *)
Lemma final_counts_chain (w : Z) (r : F) (counts : dict Z) :
  final_counts w r = Ok counts ->
  counts =
    [("Wins", w);
     ("Proposals", fround (fmul (of_int w) (multiplier_after r 1)));
     ("Deep Conversations", fround (fmul (of_int w) (multiplier_after r 2)));
     ("Conversations", fround (fmul (of_int w) (multiplier_after r 3)));
     ("Expression of Interest", fround (fmul (of_int w) (multiplier_after r 4)))]%string.
Proof.
  unfold final_counts. cbn [rev stages app count_loop multiplier_after].
  intros Hc.
  repeat (unfold py_truediv, py_mul, py_round, to_float, py_float in Hc;
          cbn [bind dict_set String.eqb Ascii.eqb Bool.eqb mapM snd fst] in Hc;
          try discriminate Hc;
          match type of Hc with
          | context [if ?b then _ else _] => destruct b
          end).
  all: try discriminate Hc.
  injection Hc as <-. now rewrite Z.mul_1_r.
Qed.

(** The final counts list the stages from Wins backward. *)
Lemma final_counts_shape (w : Z) (r : F) (counts : dict Z) :
  final_counts w r = Ok counts ->
  exists c0 c1 c2 c3 c4,
    counts = [("Wins", c0); ("Proposals", c1); ("Deep Conversations", c2);
              ("Conversations", c3); ("Expression of Interest", c4)]%string.
Proof.
  intros Hc. apply final_counts_chain in Hc. subst counts. now do 5 eexists.
Qed.

(** The plan ramps every stage from 0 to its final count. *)
Lemma plan_of_counts (duration : string) (n w : Z) (r : F) (c0 c1 c2 c3 c4 : Z) :
  final_counts w r =
    Ok [("Wins", c0); ("Proposals", c1); ("Deep Conversations", c2);
        ("Conversations", c3); ("Expression of Interest", c4)]%string ->
  0 <= n ->
  create_funnel_plan duration n w r =
    let label := if String.eqb duration "weekly" then "Week"%string else "Day"%string in
    Ok ({| time_name := label; time := arange n;
           columns := [("Expression of Interest", samples 0 c4 n);
                       ("Conversations", samples 0 c3 n);
                       ("Deep Conversations", samples 0 c2 n);
                       ("Proposals", samples 0 c1 n);
                       ("Wins", samples 0 c0 n)]%string |}, label).
Proof.
  intros Hc Hn. unfold create_funnel_plan. rewrite Hc.
  cbn [bind mapM stages dict_get String.eqb Ascii.eqb Bool.eqb].
  rewrite !linspace_ok by exact Hn. reflexivity.
Qed.

(** In every arithmetic, the planned series of two or more periods ends
    at the final count of its stage, converted to a float. *)
Lemma planned_series_last (duration : string) (n w : Z) (r : F) (counts : dict Z) :
  2 <= n -> final_counts w r = Ok counts ->
  exists df label,
    create_funnel_plan duration n w r = Ok (df, label) /\
    forall stage, In stage stages ->
      exists c col,
        dict_get counts stage = Ok c /\
        dict_get (columns df) stage = Ok col /\
        List.length col = Z.to_nat n /\
        forall d, last col d = of_int c.
Proof.
  intros Hn Hc.
  destruct (final_counts_shape w r counts Hc) as (c0 & c1 & c2 & c3 & c4 & ->).
  rewrite (plan_of_counts duration n w r c0 c1 c2 c3 c4 Hc) by lia.
  do 2 eexists. split; [reflexivity|].
  intros stage Hin. cbn [In stages] in Hin. cbn [columns].
  repeat (destruct Hin as [<-|Hin];
          [do 2 eexists; split; [reflexivity|]; split; [reflexivity|];
           split; [apply samples_length|]; intros d; now apply samples_last|]).
  contradiction.
Qed.

End Plan.

(** ** The planner in exact arithmetic *)

Section IdealPlanner.
Local Open Scope Q_scope.









End IdealPlanner.

(** ** The planned series in exact arithmetic *)

Section IdealSeries.
Local Open Scope Q_scope.













End IdealSeries.

(** ** Masked assignment *)

Section Masks.

Context {F : Type} `{Float64 F}.

Lemma put_masked_length (mask : list bool) (values col : list F) :
  List.length (put_masked mask values col) = List.length col.
Proof.
  revert values col. induction mask as [|b mask IH]; intros values col.
  - reflexivity.
  - destruct col as [|c col]; [destruct b; reflexivity|].
    destruct b; [destruct values as [|v values]|];
      cbn [put_masked List.length]; rewrite ?IH; reflexivity.
Qed.

Lemma loc_set_scalar_length (mask : list bool) (v : F) (col : list F) :
  List.length (loc_set_scalar mask v col) = List.length col.
Proof.
  revert col. induction mask as [|b mask IH]; intros col.
  - reflexivity.
  - destruct col as [|c col]; [reflexivity|].
    cbn [loc_set_scalar List.length]. now rewrite IH.
Qed.

(** Every period is either up to [t] or after [t], so the two
    assignments of one data point leave nothing of the old column. *)
Lemma overwrite_whole_column (time : list Z) (t : Z) (values : list F) (v : F)
    (col col' : list F) :
  count_occ bool_dec (map (fun p => p <=? t) time) true = List.length values ->
  List.length col = List.length time ->
  List.length col' = List.length time ->
  loc_set_scalar (map (fun p => t <? p) time) v
    (put_masked (map (fun p => p <=? t) time) values col) =
  loc_set_scalar (map (fun p => t <? p) time) v
    (put_masked (map (fun p => p <=? t) time) values col').
Proof.
  revert values col col'.
  induction time as [|p time IH]; intros values col col' Hcount Hlen Hlen'.
  - destruct col; [|discriminate]. destruct col'; [|discriminate]. reflexivity.
  - destruct col as [|c col]; [discriminate|]. destruct col' as [|c' col']; [discriminate|].
    injection Hlen as Hlen. injection Hlen' as Hlen'.
    cbn [map put_masked] in *.
    destruct (Z.leb_spec p t) as [Hle|Hgt].
    + rewrite count_occ_cons_eq in Hcount by reflexivity.
      destruct values as [|x values]; [discriminate|]. injection Hcount as Hcount.
      cbn [loc_set_scalar]. f_equal. now apply IH.
    + rewrite count_occ_cons_neq in Hcount by discriminate.
      cbn [loc_set_scalar].
      replace (t <? p) with true by (symmetry; apply Z.ltb_lt; lia).
      f_equal. now apply IH.
Qed.

(** One data point on one stage: the new column does not depend on
    the old one. *)
Lemma apply_point_column (time : list Z) (point : Z * dict Z)
    (cols : dict (list F)) (stage : string) (col : list F) :
  dict_get cols stage = Ok col ->
  List.length col = List.length time ->
  apply_point time point cols stage =
  (new <- point_column time point stage ;; Ok (dict_set cols stage new)).
Proof.
  intros Hget Hlen. destruct point as [t values].
  unfold apply_point, point_column.
  destruct (dict_get values stage) as [val|e]; [|reflexivity]. cbn [bind].
  destruct (if 0 <? t then linspace 0 val (t + 1) else Ok [of_int val]) as [lv|e];
    [|reflexivity].
  cbn [bind]. rewrite Hget. cbn [bind]. unfold loc_set_list.
  destruct (Nat.eqb_spec (count_occ bool_dec (map (fun p => p <=? t) time) true)
              (List.length lv)) as [Hcount|Hcount]; [|reflexivity].
  cbn [bind]. do 2 f_equal.
  apply overwrite_whole_column; [exact Hcount|exact Hlen|now rewrite length_map].
Qed.

Lemma point_column_length (time : list Z) (point : Z * dict Z) (stage : string)
    (col : list F) :
  point_column time point stage = Ok col -> List.length col = List.length time.
Proof.
  destruct point as [t values]. unfold point_column.
  destruct (dict_get values stage) as [val|e]; [|discriminate]. cbn [bind].
  destruct (if 0 <? t then linspace 0 val (t + 1) else Ok [of_int val]) as [lv|e];
    [|discriminate].
  cbn [bind]. unfold loc_set_list.
  destruct (Nat.eqb _ _); [|discriminate]. cbn [bind].
  intros Hcol. injection Hcol as <-.
  now rewrite loc_set_scalar_length, put_masked_length, length_map.
Qed.

End Masks.

(** ** Data points applied in turn *)

Section Points.

Context {F : Type} `{Float64 F}.

Lemma frame_shape_inv (len : nat) (cols : dict (list F)) :
  frame_shape len cols ->
  exists e1 e2 e3 e4 e5,
    cols = [("Expression of Interest", e1); ("Conversations", e2);
            ("Deep Conversations", e3); ("Proposals", e4); ("Wins", e5)]%string /\
    List.length e1 = len /\ List.length e2 = len /\ List.length e3 = len /\
    List.length e4 = len /\ List.length e5 = len.
Proof.
  intros [Hkeys Hlen]. unfold stages in Hkeys.
  do 5 (destruct cols as [|[? ?] cols]; [discriminate|]; cbn [map fst] in Hkeys;
        injection Hkeys as -> Hkeys; apply Forall_cons_iff in Hlen as [? Hlen]).
  destruct cols; [|discriminate]. cbn [snd] in *.
  do 5 eexists. split; [reflexivity|]. tauto.
Qed.

(** Applying a data point to every stage rewrites the whole frame. *)
Lemma apply_point_all (time : list Z) (point : Z * dict Z) (cols : dict (list F)) :
  frame_shape (List.length time) cols ->
  foldM (apply_point time point) stages cols = point_columns time point.
Proof.
  intros Hshape.
  destruct (frame_shape_inv _ _ Hshape)
    as (e1 & e2 & e3 & e4 & e5 & -> & H1 & H2 & H3 & H4 & H5).
  unfold point_columns. cbn [foldM mapM stages].
  rewrite (apply_point_column time point _ _ e1) by (reflexivity || assumption).
  destruct (point_column time point "Expression of Interest"); [|reflexivity].
  cbn [bind dict_set String.eqb Ascii.eqb Bool.eqb].
  rewrite (apply_point_column time point _ _ e2) by (reflexivity || assumption).
  destruct (point_column time point "Conversations"); [|reflexivity].
  cbn [bind dict_set String.eqb Ascii.eqb Bool.eqb].
  rewrite (apply_point_column time point _ _ e3) by (reflexivity || assumption).
  destruct (point_column time point "Deep Conversations"); [|reflexivity].
  cbn [bind dict_set String.eqb Ascii.eqb Bool.eqb].
  rewrite (apply_point_column time point _ _ e4) by (reflexivity || assumption).
  destruct (point_column time point "Proposals"); [|reflexivity].
  cbn [bind dict_set String.eqb Ascii.eqb Bool.eqb].
  rewrite (apply_point_column time point _ _ e5) by (reflexivity || assumption).
  destruct (point_column time point "Wins"); reflexivity.
Qed.

Lemma point_columns_shape (time : list Z) (point : Z * dict Z) (cols : dict (list F)) :
  point_columns time point = Ok cols -> frame_shape (List.length time) cols.
Proof.
  unfold point_columns. cbn [mapM stages]. intros Hcols.
  repeat match type of Hcols with
         | context [point_column time point ?s] =>
             let E := fresh "E" in
             destruct (point_column time point s) eqn:E; cbn [bind] in Hcols;
             [apply point_column_length in E|discriminate Hcols]
         end.
  injection Hcols as <-. split; [reflexivity|].
  repeat constructor; assumption.
Qed.

Lemma zero_frame_shape (time : list Z) :
  frame_shape (List.length time)
    (fold_left (fun cols stage => dict_set cols stage (map (fun _ => of_int 0) time))
       stages []).
Proof.
  split; [reflexivity|].
  cbn [fold_left stages dict_set String.eqb Ascii.eqb Bool.eqb].
  repeat constructor; apply length_map.
Qed.

Lemma foldM_app {A B : Type} (f : B -> A -> result B) (l1 l2 : list A) (b : B) :
  foldM f (l1 ++ l2) b = (b' <- foldM f l1 b ;; foldM f l2 b').
Proof.
  revert b. induction l1 as [|a l1 IH]; intros b; [reflexivity|].
  cbn [app foldM]. destruct (f b a); [apply IH|reflexivity].
Qed.

End Points.

(** ** One data point on the axis of the plan *)

Lemma mask_up_to (n t : Z) :
  0 <= t < n ->
  map (fun p => p <=? t) (arange n) =
  repeat true (Z.to_nat (t + 1)) ++ repeat false (Z.to_nat (n - 1 - t)).
Proof.
  intros Ht. unfold arange.
  replace (Z.to_nat n) with (Z.to_nat (t + 1) + Z.to_nat (n - 1 - t))%nat by lia.
  rewrite seq_app, !map_app, !map_map. f_equal.
  - rewrite <- (length_seq (Z.to_nat (t + 1)) 0) at 2. rewrite <- map_const.
    apply map_ext_in. intros k Hk. apply in_seq in Hk. apply Z.leb_le. lia.
  - rewrite <- (length_seq (Z.to_nat (n - 1 - t)) (0 + Z.to_nat (t + 1))) at 2.
    rewrite <- map_const.
    apply map_ext_in. intros k Hk. apply in_seq in Hk. apply Z.leb_gt. lia.
Qed.

Lemma mask_after (n t : Z) :
  0 <= t < n ->
  map (fun p => t <? p) (arange n) =
  repeat false (Z.to_nat (t + 1)) ++ repeat true (Z.to_nat (n - 1 - t)).
Proof.
  intros Ht. unfold arange.
  replace (Z.to_nat n) with (Z.to_nat (t + 1) + Z.to_nat (n - 1 - t))%nat by lia.
  rewrite seq_app, !map_app, !map_map. f_equal.
  - rewrite <- (length_seq (Z.to_nat (t + 1)) 0) at 2. rewrite <- map_const.
    apply map_ext_in. intros k Hk. apply in_seq in Hk. apply Z.ltb_ge. lia.
  - rewrite <- (length_seq (Z.to_nat (n - 1 - t)) (0 + Z.to_nat (t + 1))) at 2.
    rewrite <- map_const.
    apply map_ext_in. intros k Hk. apply in_seq in Hk. apply Z.ltb_lt. lia.
Qed.

Lemma count_prefix_mask (a b : nat) :
  count_occ bool_dec (repeat true a ++ repeat false b) true = a.
Proof.
  induction a as [|a IH].
  - induction b as [|b IH]; [reflexivity|].
    cbn [repeat app] in *. now rewrite count_occ_cons_neq by discriminate.
  - cbn [repeat app]. rewrite count_occ_cons_eq by reflexivity. now rewrite IH.
Qed.

Section OnePoint.

Context {F : Type} `{Float64 F}.

Lemma put_masked_none (b : nat) (col : list F) :
  put_masked (repeat false b) [] col = col.
Proof.
  revert col. induction b as [|b IH]; intros col; [reflexivity|].
  destruct col as [|c col]; [reflexivity|].
  cbn [repeat put_masked]. now rewrite IH.
Qed.

Lemma loc_set_scalar_all (v : F) (col : list F) :
  loc_set_scalar (repeat true (List.length col)) v col = repeat v (List.length col).
Proof.
  induction col as [|c col IH]; [reflexivity|].
  cbn [List.length repeat loc_set_scalar]. now rewrite IH.
Qed.

(** The two assignments of a data point: the values, then the flat
    value on what follows. *)
Lemma point_writes (values : list F) (b : nat) (v : F) (col : list F) :
  List.length col = (List.length values + b)%nat ->
  loc_set_scalar (repeat false (List.length values) ++ repeat true b) v
    (put_masked (repeat true (List.length values) ++ repeat false b) values col) =
  values ++ repeat v b.
Proof.
  revert col. induction values as [|x values IH]; intros col Hlen.
  - cbn [List.length repeat app Nat.add] in *. rewrite put_masked_none.
    rewrite <- Hlen. apply loc_set_scalar_all.
  - destruct col as [|c col]; [discriminate|]. injection Hlen as Hlen.
    cbn [List.length repeat app put_masked loc_set_scalar]. f_equal. now apply IH.
Qed.

(** The values a data point ramps through. *)
Lemma ramp_values (t v : Z) :
  0 <= t ->
  exists lv : list F,
    (if 0 <? t then linspace 0 v (t + 1) else Ok [of_int v]) = Ok lv /\
    lv = (if 0 <? t then samples 0 v (t + 1) else [of_int v]) /\
    List.length lv = Z.to_nat (t + 1).
Proof.
  intros Ht. destruct (Z.ltb_spec 0 t) as [Hpos|Hzero].
  - exists (samples 0 v (t + 1)). rewrite linspace_ok by lia.
    repeat split. apply samples_length.
  - exists [of_int v]. replace t with 0 by lia. repeat split.
Qed.

(** A data point on the axis writes the ramp, then the flat value. *)
Lemma point_column_valid (n t : Z) (values : dict Z) (stage : string) (v : Z) :
  0 <= t < n ->
  dict_get values stage = Ok v ->
  point_column (arange n) (t, values) stage = Ok (ramp_then_flat n t v).
Proof.
  intros Ht Hget. unfold point_column, ramp_then_flat. rewrite Hget. cbn [bind].
  destruct (ramp_values t v ltac:(lia)) as (lv & -> & <- & Hlen). cbn [bind].
  rewrite mask_up_to, mask_after by exact Ht. rewrite <- Hlen.
  unfold loc_set_list. rewrite count_prefix_mask, Nat.eqb_refl. cbn [bind].
  rewrite point_writes; [reflexivity|].
  rewrite length_map, arange_length. lia.
Qed.

End OnePoint.

(** ** The actual series *)

Lemma complete_inv (values : dict Z) :
  complete values = true ->
  forall stage, In stage stages -> exists v, dict_get values stage = Ok v.
Proof.
  unfold complete. rewrite forallb_forall. intros Hall stage Hin.
  specialize (Hall stage Hin). destruct (dict_get values stage) as [v|e]; [|discriminate].
  now exists v.
Qed.

Section Actual.

Context {F : Type} `{Float64 F}.

(** A well-formed data point rewrites every column as its own ramp
    followed by its own flat value. *)
Lemma valid_point_columns (n : Z) (point : Z * dict Z) :
  valid_point n point ->
  exists v1 v2 v3 v4 v5,
    dict_get (snd point) "Expression of Interest" = Ok v1 /\
    dict_get (snd point) "Conversations" = Ok v2 /\
    dict_get (snd point) "Deep Conversations" = Ok v3 /\
    dict_get (snd point) "Proposals" = Ok v4 /\
    dict_get (snd point) "Wins" = Ok v5 /\
    point_columns (arange n) point =
      Ok [("Expression of Interest"%string, ramp_then_flat n (fst point) v1);
          ("Conversations"%string, ramp_then_flat n (fst point) v2);
          ("Deep Conversations"%string, ramp_then_flat n (fst point) v3);
          ("Proposals"%string, ramp_then_flat n (fst point) v4);
          ("Wins"%string, ramp_then_flat n (fst point) v5)].
Proof.
  destruct point as [t values]. intros [Ht Hall]. cbn [fst snd] in *.
  pose proof (complete_inv values Hall) as Hv.
  destruct (Hv "Expression of Interest"%string) as [v1 H1]; [cbn; tauto|].
  destruct (Hv "Conversations"%string) as [v2 H2]; [cbn; tauto|].
  destruct (Hv "Deep Conversations"%string) as [v3 H3]; [cbn; tauto|].
  destruct (Hv "Proposals"%string) as [v4 H4]; [cbn; tauto|].
  destruct (Hv "Wins"%string) as [v5 H5]; [cbn; tauto|].
  exists v1, v2, v3, v4, v5. repeat (split; [assumption|]).
  unfold point_columns. cbn [mapM stages].
  rewrite (point_column_valid n t values _ v1), (point_column_valid n t values _ v2),
    (point_column_valid n t values _ v3), (point_column_valid n t values _ v4),
    (point_column_valid n t values _ v5) by assumption.
  reflexivity.
Qed.

(** Well-formed data points apply without error. *)
Lemma valid_points_run (n : Z) (points : list (Z * dict Z)) (cols : dict (list F)) :
  Forall (valid_point n) points ->
  frame_shape (List.length (arange n)) cols ->
  exists cols',
    foldM (fun cols point => foldM (apply_point (arange n) point) stages cols)
      points cols = Ok cols' /\
    frame_shape (List.length (arange n)) cols'.
Proof.
  intros Hvalid. revert cols.
  induction Hvalid as [|point points Hpoint _ IH]; intros cols Hshape.
  - exists cols. now split.
  - cbn [foldM]. rewrite apply_point_all by exact Hshape.
    destruct (valid_point_columns n point Hpoint) as (v1 & v2 & v3 & v4 & v5 & _ & _ & _ & _ & _ & E).
    rewrite E. cbn [bind]. apply IH. now apply point_columns_shape in E.
Qed.

(** C2: whatever well-formed data points come first, the actual series
    built from them and a last data point is, in every stage and every
    period, the series built from the last data point alone on the
    all-zero frame. *)
Theorem last_point_wins (label : string) (n : Z)
    (earlier : list (Z * dict Z)) (latest : Z * dict Z) :
  Forall (valid_point n) earlier ->
  actual_df label (arange n) (earlier ++ [latest]) = actual_df label (arange n) [latest].
Proof.
  intros Hvalid. unfold actual_df.
  pose proof (zero_frame_shape (arange n)) as Hzero.
  destruct (valid_points_run n earlier _ Hvalid Hzero) as (cols' & Hrun & Hshape).
  rewrite foldM_app, Hrun. cbn [bind foldM].
  now rewrite !apply_point_all by assumption.
Qed.

(** C3: a single well-formed data point [(t, values)], applied to the
    all-zero frame over the periods [0 .. n-1], gives every stage the
    [t + 1] samples of [np.linspace(0, v, t + 1)] on the periods
    [0 .. t] when [t > 0], the value [v] itself on period 0 when
    [t = 0], and the flat value [v] on every period after [t], where
    [v] is the value of the stage. *)
Theorem single_point_series (label : string) (n t : Z) (values : dict Z) :
  valid_point n (t, values) ->
  exists df,
    actual_df label (arange n) [(t, values)] = Ok df /\
    time df = arange n /\
    forall stage, In stage stages ->
      exists v ramp,
        dict_get values stage = Ok v /\
        ramp = (if 0 <? t then samples 0 v (t + 1) else [of_int v]) /\
        List.length ramp = Z.to_nat (t + 1) /\
        dict_get (columns df) stage = Ok (ramp ++ repeat (of_int v) (Z.to_nat (n - 1 - t))).
Proof.
  intros Hvalid. unfold actual_df. cbn [foldM].
  rewrite apply_point_all by apply zero_frame_shape.
  destruct (valid_point_columns n (t, values) Hvalid)
    as (v1 & v2 & v3 & v4 & v5 & H1 & H2 & H3 & H4 & H5 & E).
  cbn [fst snd] in *. rewrite E. cbn [bind].
  eexists. split; [reflexivity|]. split; [reflexivity|].
  intros stage Hin. cbn [columns].
  assert (Hlen : forall v : Z,
             List.length (if 0 <? t then samples 0 v (t + 1) else [of_int v] : list F)
             = Z.to_nat (t + 1)).
  { intros v. destruct Hvalid as [Ht _]. cbn [fst] in Ht.
    destruct (Z.ltb_spec 0 t); [apply samples_length|].
    replace t with 0 by lia. reflexivity. }
  cbn [In stages] in Hin.
  repeat (destruct Hin as [<-|Hin];
          [do 2 eexists; split; [eassumption|];
           split; [reflexivity|]; split; [apply Hlen|reflexivity]|]).
  contradiction.
Qed.

End Actual.

(** One data point at period 5 with value 10 on ten periods: 0, 2, 4,
    6, 8, 10 on the periods 0 to 5, then 10 on the periods 6 to 9, as
    doubles. *)
Lemma single_point_series_witness :
  exists df,
    actual_df (F:=spec_float) "Week" (arange 10) [(5, same_value 10)] = Ok df /\
    forall stage, In stage stages ->
      dict_get (columns df) stage = Ok (map of_int [0; 2; 4; 6; 8; 10; 10; 10; 10; 10]).
Proof.
  destruct (single_point_series (F:=spec_float) "Week" 10 5 (same_value 10))
    as (df & Hdf & _ & Hcols).
  - split; [cbn; lia|reflexivity].
  - exists df. split; [exact Hdf|].
    intros stage Hin. destruct (Hcols stage Hin) as (v & ramp & Hv & -> & _ & ->).
    cbn [In stages] in Hin.
    repeat (destruct Hin as [<-|Hin]; [vm_compute in Hv; injection Hv as <-; vm_compute; reflexivity|]).
    contradiction.
Defined.

Lemma last_point_wins_witness :
  actual_df (F:=spec_float) "Week" (arange 10) [(7, same_value 3); (2, same_value 9); (5, same_value 10)] =
  actual_df "Week" (arange 10) [(5, same_value 10)].
Proof.
  apply (last_point_wins (F:=spec_float) "Week" 10 [(7, same_value 3); (2, same_value 9)] (5, same_value 10)).
  repeat constructor; cbn; lia.
Defined.

(** ** Concrete runs *)

(** C9: with target_wins = 4, conversion_rate = 0.5 and total_periods = 5
    the final targets are Wins 4, Proposals 8, Deep Conversations 16,
    Conversations 32 and Expression of Interest 64, and the planned
    series of Wins is 0, 1, 2, 3, 4; in binary64 and in exact
    arithmetic alike, whatever the duration. *)
Theorem scenario_4_half_5 (duration : string) :
  let targets := [("Wins", 4); ("Proposals", 8); ("Deep Conversations", 16);
                  ("Conversations", 32); ("Expression of Interest", 64)]%string in
  (final_counts 4 half64 = Ok targets /\
   exists df label,
     create_funnel_plan duration 5 4 half64 = Ok (df, label) /\
     time df = [0; 1; 2; 3; 4] /\
     dict_get (columns df) "Wins" = Ok (map of_int [0; 1; 2; 3; 4])) /\
  (final_counts 4 (1 # 2)%Q = Ok targets /\
   exists df label,
     create_funnel_plan duration 5 4 (1 # 2)%Q = Ok (df, label) /\
     time df = [0; 1; 2; 3; 4] /\
     dict_get (columns df) "Wins" = Ok (map of_int [0; 1; 2; 3; 4])).
Proof.
  cbv zeta. split; (split; [vm_compute; reflexivity|]).
  - unfold create_funnel_plan.
    destruct (String.eqb duration "weekly");
      (do 2 eexists; split; [vm_compute; reflexivity|split; vm_compute; reflexivity]).
  - unfold create_funnel_plan.
    destruct (String.eqb duration "weekly");
      (do 2 eexists; split; [vm_compute; reflexivity|split; vm_compute; reflexivity]).
Qed.

(** ** The time label *)

(** C10: whenever the planner returns, its label is Week exactly when
    the duration is the string weekly, and Day for every other
    duration; and it then returns for every other duration as well,
    recognised or not, with the label of that duration. *)
Theorem time_label_weekly_or_day {F : Type} `{Float64 F}
    (duration : string) (total_periods target_wins : Z) (conversion_rate : F)
    (df : DataFrame F) (label : string) :
  create_funnel_plan duration total_periods target_wins conversion_rate = Ok (df, label) ->
  (label = "Week"%string <-> duration = "weekly"%string) /\
  (duration <> "weekly"%string -> label = "Day"%string) /\
  time_name df = label /\
  forall other : string,
    exists df',
      create_funnel_plan other total_periods target_wins conversion_rate =
      Ok (df', if String.eqb other "weekly" then "Week"%string else "Day"%string).
Proof.
  unfold create_funnel_plan, bind.
  destruct (final_counts target_wins conversion_rate) as [counts|e]; [|discriminate].
  destruct (mapM _ stages) as [data|e]; [|discriminate].
  intros Hret. injection Hret as Hdf Hlabel. subst df. simpl.
  destruct (String.eqb_spec duration "weekly") as [Heq|Hne]; subst label.
  - repeat split; auto; try contradiction. intros other. now eexists.
  - repeat split; auto; try discriminate; try contradiction. intros other. now eexists.
Qed.

Lemma time_label_weekly_or_day_witness :
  exists df,
    create_funnel_plan "Weekly" 5 4 half64 = Ok (df, "Day"%string) /\
    ("Day"%string = "Week"%string <-> "Weekly"%string = "weekly"%string).
Proof.
  eexists. split; [vm_compute; reflexivity|].
  eapply (time_label_weekly_or_day "Weekly" 5 4 half64). vm_compute. reflexivity.
Defined.

(** Unrecognised durations are not refused: the plan is the daily one. *)
Lemma unrecognised_duration_is_day :
  forall duration, In duration ["daily"; "Weekly"; "week"; ""]%string ->
    create_funnel_plan duration 5 4 half64 = create_funnel_plan "daily" 5 4 half64 /\
    exists df, create_funnel_plan duration 5 4 half64 = Ok (df, "Day"%string).
Proof.
  intros duration Hin. simpl in Hin.
  repeat (destruct Hin as [<-|Hin]; [split; [reflexivity|eexists; vm_compute; reflexivity]|]).
  contradiction.
Qed.

(** ** Inputs outside the domain of the specification *)



(** ** Where binary64 leaves exact arithmetic *)

(** A conversion rate of [2^-300] overflows the chain of divisions:
    the count of the first stage is infinite and [round] raises. *)
Lemma tiny_rate_overflows :
  final_counts 4 (b64 1 (-300)) = Raise OverflowError.
Proof. vm_compute. reflexivity. Qed.

(** The double nearest to 0.4 lies above 0.4, yet [1 / 0.4] is the
    double 2.5: three wins need [round(7.5) = 8] proposals, as with the
    exact rate 2/5. *)
Lemma rate_two_fifths :
  final_counts 3 (b64 3602879701896397 (-53)) = final_counts 3 (2 # 5)%Q.
Proof. vm_compute. reflexivity. Qed.

(** ** binary64 on the inputs of the dashboard

    The sliders offer 1 to 20 wins, the rates 0.10, 0.15, ..., 1.00 and
    4 to 180 periods. *)

Lemma in_range (lo : Z) (len : nat) (z : Z) :
  lo <= z < lo + Z.of_nat len -> In z (range lo len).
Proof.
  intros Hz. apply in_map_iff. exists (Z.to_nat (z - lo)). split; [lia|].
  apply in_seq. lia.
Qed.

(** On those wins and rates the doubles give the final counts of exact
    arithmetic. *)
Lemma binary64_counts_on_the_sliders (w k : Z) :
  1 <= w <= 20 -> 2 <= k <= 20 ->
  final_counts w (nearest64 k 20) = final_counts w (k # 20)%Q.
Proof.
  intros Hw Hk.
  assert (Hall : map (fun wk => final_counts (fst wk) (nearest64 (snd wk) 20))
                   (list_prod (range 1 20) (range 2 19)) =
                 map (fun wk => final_counts (fst wk) (snd wk # 20)%Q)
                   (list_prod (range 1 20) (range 2 19)))
    by (vm_compute; reflexivity).
  rewrite map_ext_in_iff in Hall.
  apply (Hall (w, k)). apply in_prod; apply in_range; lia.
Qed.

(** The default plan, 4 wins at the rate 0.5, over every number of
    periods on offer: every series starts at 0.0, ends at the final
    count and never decreases. *)
Lemma binary64_series_on_the_default_plan (n : Z) :
  4 <= n <= 180 -> plan_ok 4 10 n = true.
Proof.
  intros Hn.
  assert (Hall : forallb (plan_ok 4 10) (range 4 177) = true)
    by (vm_compute; reflexivity).
  rewrite forallb_forall in Hall. apply Hall. apply in_range. lia.
Qed.

(** Every plan on offer over the default 26 periods, likewise. *)
Lemma binary64_series_on_26_periods (w k : Z) :
  1 <= w <= 20 -> 2 <= k <= 20 -> plan_ok w k 26 = true.
Proof.
  intros Hw Hk.
  assert (Hall : forallb (fun wk => plan_ok (fst wk) (snd wk) 26)
                   (list_prod (range 1 20) (range 2 19)) = true)
    by (vm_compute; reflexivity).
  rewrite forallb_forall in Hall.
  apply (Hall (w, k)). apply in_prod; apply in_range; lia.
Qed.

(** * Further properties of the planner *)

Section PlanFrame.

Context {F : Type} `{Float64 F}.

(** What the planner returns: the frame of the ramps, named by the
    label. *)
Lemma plan_frame_inv (duration : string) (n w : Z) (r : F)
    (df : DataFrame F) (label : string) :
  create_funnel_plan duration n w r = Ok (df, label) ->
  0 <= n /\
  (label = "Week"%string \/ label = "Day"%string) /\
  exists c0 c1 c2 c3 c4,
    df = {| time_name := label; time := arange n;
            columns := [("Expression of Interest", samples 0 c4 n);
                        ("Conversations", samples 0 c3 n);
                        ("Deep Conversations", samples 0 c2 n);
                        ("Proposals", samples 0 c1 n);
                        ("Wins", samples 0 c0 n)]%string |}.
Proof.
  intros Hplan.
  destruct (final_counts w r) as [counts|e] eqn:Hc;
    [|unfold create_funnel_plan in Hplan; rewrite Hc in Hplan; discriminate].
  destruct (final_counts_shape w r counts Hc) as (c0 & c1 & c2 & c3 & c4 & ->).
  destruct (Z_lt_le_dec n 0) as [Hneg|Hn].
  - unfold create_funnel_plan in Hplan. rewrite Hc in Hplan.
    cbn [bind mapM stages dict_get String.eqb Ascii.eqb Bool.eqb] in Hplan.
    unfold linspace in Hplan.
    replace (n <? 0) with true in Hplan by (symmetry; apply Z.ltb_lt; lia).
    discriminate.
  - rewrite (plan_of_counts duration n w r c0 c1 c2 c3 c4 Hc Hn) in Hplan.
    cbv zeta in Hplan. injection Hplan as <- <-.
    split; [exact Hn|].
    split; [destruct (String.eqb duration "weekly"); tauto|].
    now exists c0, c1, c2, c3, c4.
Qed.

(** X1: a negative number of periods is refused by [np.linspace] with
    ValueError, once the final counts are there. *)
Theorem negative_periods_raise (duration : string) (n w : Z) (r : F) (counts : dict Z) :
  final_counts w r = Ok counts -> n < 0 ->
  create_funnel_plan duration n w r = Raise ValueError.
Proof.
  intros Hc Hn.
  destruct (final_counts_shape w r counts Hc) as (c0 & c1 & c2 & c3 & c4 & ->).
  unfold create_funnel_plan. rewrite Hc.
  cbn [bind mapM stages dict_get String.eqb Ascii.eqb Bool.eqb].
  unfold linspace. now replace (n <? 0) with true by (symmetry; apply Z.ltb_lt; lia).
Qed.

(** X2: whenever the planner returns, its frame is rectangular and is a
    frame of stages: the time column is named by the returned label and
    is [0 .. n-1], there is one column per stage, in the order of the
    stages, none of them under the name of the time column, and each
    has as many samples as there are periods. *)
Theorem plan_is_rectangular (duration : string) (n w : Z) (r : F)
    (df : DataFrame F) (label : string) :
  create_funnel_plan duration n w r = Ok (df, label) ->
  0 <= n /\
  time_name df = label /\
  time df = arange n /\
  stage_frame df /\
  Forall (fun kv => List.length (snd kv) = List.length (time df)) (columns df).
Proof.
  intros Hplan.
  destruct (plan_frame_inv duration n w r df label Hplan)
    as (Hn & Hlabel & c0 & c1 & c2 & c3 & c4 & ->).
  cbn [time time_name columns].
  split; [exact Hn|]. split; [reflexivity|]. split; [reflexivity|]. split.
  - split; [reflexivity|]. cbn [time_name In stages].
    destruct Hlabel as [-> | ->]; intuition discriminate.
  - repeat constructor; cbn [snd]; now rewrite samples_length, arange_length.
Qed.

(** X3: with no period at all the planner returns the empty frame: no
    period on the axis and no sample in any stage. *)
Theorem no_period_no_sample (duration : string) (w : Z) (r : F) (counts : dict Z) :
  final_counts w r = Ok counts ->
  exists df label,
    create_funnel_plan duration 0 w r = Ok (df, label) /\
    time df = [] /\
    columns df = map (fun stage => (stage, [])) stages.
Proof.
  intros Hc.
  destruct (final_counts_shape w r counts Hc) as (c0 & c1 & c2 & c3 & c4 & ->).
  rewrite (plan_of_counts duration 0 w r c0 c1 c2 c3 c4 Hc) by lia.
  do 2 eexists. split; [reflexivity|]. split; reflexivity.
Qed.

End PlanFrame.

Lemma negative_periods_raise_witness :
  create_funnel_plan "weekly" (-3) 4 half64 = Raise ValueError.
Proof.
  apply (negative_periods_raise "weekly" (-3) 4 half64
           [("Wins", 4); ("Proposals", 8); ("Deep Conversations", 16);
            ("Conversations", 32); ("Expression of Interest", 64)]%string);
    [vm_compute; reflexivity|lia].
Defined.

Lemma plan_is_rectangular_witness :
  exists df label,
    create_funnel_plan "daily" 7 4 half64 = Ok (df, label) /\
    time df = arange 7 /\
    map fst (columns df) = stages.
Proof.
  destruct (create_funnel_plan "daily" 7 4 half64) as [[df label]|e] eqn:E;
    [|vm_compute in E; discriminate E].
  exists df, label. split; [reflexivity|].
  destruct (plan_is_rectangular "daily" 7 4 half64 df label E) as (_ & _ & Ht & Hk & _).
  split; [exact Ht|exact (proj1 Hk)].
Defined.

Lemma no_period_no_sample_witness :
  exists df label,
    create_funnel_plan "weekly" 0 4 half64 = Ok (df, label) /\
    time df = [] /\
    columns df = map (fun stage => (stage, [])) stages.
Proof.
  apply (no_period_no_sample "weekly" 4 half64
           [("Wins", 4); ("Proposals", 8); ("Deep Conversations", 16);
            ("Conversations", 32); ("Expression of Interest", 64)]%string).
  vm_compute. reflexivity.
Defined.

(** ** The planned series in exact arithmetic, sample by sample *)

Section IdealRamps.
Local Open Scope Q_scope.









End IdealRamps.

Section IdealPlans.
Local Open Scope Q_scope.






Lemma stage_at (a : nat) (stage : string) :
  nth_error stages a = Some stage ->
  (a = 0%nat /\ stage = "Expression of Interest"%string) \/
  (a = 1%nat /\ stage = "Conversations"%string) \/
  (a = 2%nat /\ stage = "Deep Conversations"%string) \/
  (a = 3%nat /\ stage = "Proposals"%string) \/
  (a = 4%nat /\ stage = "Wins"%string).
Proof.
  intros Ha.
  destruct a as [|[|[|[|[|a]]]]]; cbn in Ha;
    try (injection Ha as <-; tauto).
  destruct a; discriminate Ha.
Qed.





End IdealPlans.

(** * Further properties of the actual series *)

Lemma dict_get_raises {V : Type} (d : dict V) (k : string) (e : exception) :
  dict_get d k = Raise e -> e = KeyError.
Proof.
  induction d as [|[k' v] d IH]; cbn [dict_get].
  - now intros [= <-].
  - destruct (String.eqb k' k); [discriminate|exact IH].
Qed.

Lemma nth_error_last {A : Type} (l : list A) (d : A) :
  l <> [] -> nth_error l (List.length l - 1) = Some (last l d).
Proof.
  intros Hl. destruct (exists_last Hl) as (l' & a & ->).
  rewrite last_last, length_app. cbn [List.length].
  rewrite nth_error_app2 by lia.
  replace (List.length l' + 1 - 1 - List.length l')%nat with 0%nat by lia. reflexivity.
Qed.

Lemma mask_all (n t : Z) :
  n <= t -> map (fun p => p <=? t) (arange n) = repeat true (Z.to_nat n).
Proof.
  intros Ht. unfold arange. rewrite map_map.
  rewrite <- (length_seq (Z.to_nat n) 0) at 2. rewrite <- map_const.
  apply map_ext_in. intros k Hk. apply in_seq in Hk. apply Z.leb_le. lia.
Qed.

Lemma count_all_true (a : nat) : count_occ bool_dec (repeat true a) true = a.
Proof.
  induction a as [|a IH]; [reflexivity|].
  cbn [repeat]. rewrite count_occ_cons_eq by reflexivity. now rewrite IH.
Qed.

Section ActualFrame.

Context {F : Type} `{Float64 F}.

(** The frame after well-formed data points, the last of which is
    [(t, values)]: every stage holds the ramp and the flat value of the
    last point. *)
Lemma actual_df_last (label : string) (n t : Z) (values : dict Z)
    (earlier : list (Z * dict Z)) :
  Forall (valid_point n) earlier -> valid_point n (t, values) ->
  exists v1 v2 v3 v4 v5,
    dict_get values "Expression of Interest" = Ok v1 /\
    dict_get values "Conversations" = Ok v2 /\
    dict_get values "Deep Conversations" = Ok v3 /\
    dict_get values "Proposals" = Ok v4 /\
    dict_get values "Wins" = Ok v5 /\
    actual_df label (arange n) (earlier ++ [(t, values)]) =
      Ok {| time_name := label; time := arange n;
            columns :=
              [("Expression of Interest"%string, ramp_then_flat n t v1);
               ("Conversations"%string, ramp_then_flat n t v2);
               ("Deep Conversations"%string, ramp_then_flat n t v3);
               ("Proposals"%string, ramp_then_flat n t v4);
               ("Wins"%string, ramp_then_flat n t v5)] |}.
Proof.
  intros Hearlier Hlast.
  destruct (valid_point_columns n (t, values) Hlast)
    as (v1 & v2 & v3 & v4 & v5 & H1 & H2 & H3 & H4 & H5 & E).
  cbn [fst snd] in *.
  exists v1, v2, v3, v4, v5. repeat (split; [assumption|]).
  unfold actual_df.
  destruct (valid_points_run n earlier _ Hearlier (zero_frame_shape (arange n)))
    as (cols' & Hrun & Hshape).
  rewrite foldM_app, Hrun. cbn [bind foldM].
  rewrite apply_point_all by exact Hshape. rewrite E. reflexivity.
Qed.

(** The ramp of a data point ends on its value, at its own period. *)
Lemma ramp_then_flat_at_point (n t v : Z) :
  0 <= t ->
  nth_error (ramp_then_flat n t v) (Z.to_nat t) = Some (of_int v).
Proof.
  intros Ht. unfold ramp_then_flat.
  destruct (Z.ltb_spec 0 t) as [Hpos|Hzero].
  - rewrite nth_error_app1 by (rewrite samples_length; lia).
    replace (Z.to_nat t) with (List.length (samples 0 v (t + 1)) - 1)%nat
      by (rewrite samples_length; lia).
    rewrite (nth_error_last _ (of_int 0)).
    + now rewrite samples_last by lia.
    + intros E. apply (f_equal (@List.length F)) in E.
      rewrite samples_length in E. cbn in E. lia.
  - replace t with 0 by lia. reflexivity.
Qed.

(** After its own period a data point holds its value. *)
Lemma ramp_then_flat_after_point (n t v : Z) (p : nat) :
  0 <= t < n -> (Z.to_nat t < p < Z.to_nat n)%nat ->
  nth_error (ramp_then_flat n t v) p = Some (of_int v).
Proof.
  intros Ht Hp. unfold ramp_then_flat.
  assert (Hlen : List.length (if 0 <? t then samples 0 v (t + 1) else [of_int v])
                 = Z.to_nat (t + 1)).
  { destruct (Z.ltb_spec 0 t); [apply samples_length|].
    replace t with 0 by lia. reflexivity. }
  rewrite nth_error_app2 by lia. apply nth_error_repeat. lia.
Qed.

Lemma ramp_then_flat_length (n t v : Z) :
  0 <= t < n -> List.length (ramp_then_flat n t v) = Z.to_nat n.
Proof.
  intros Ht. unfold ramp_then_flat. rewrite length_app, repeat_length.
  destruct (Z.ltb_spec 0 t); [rewrite samples_length; lia|].
  cbn [List.length]. lia.
Qed.

(** X8: with no data point the actual frame is the all-zero frame on
    the axis it is given: one zero per period in every stage. *)
Theorem no_point_all_zero (label : string) (axis : list Z) :
  exists df,
    actual_df label axis [] = Ok df /\
    time_name df = label /\ time df = axis /\
    forall stage, In stage stages ->
      dict_get (columns df) stage = Ok (repeat (of_int 0) (List.length axis)).
Proof.
  eexists. split; [reflexivity|]. split; [reflexivity|]. split; [reflexivity|].
  intros stage Hin. cbn [columns]. rewrite map_const.
  cbn [In stages] in Hin.
  repeat (destruct Hin as [<-|Hin]; [reflexivity|]). contradiction.
Qed.

(** X9: after any number of well-formed data points the actual frame
    is rectangular on the axis of the plan: the same time column, one
    column per stage in the order of the stages, as many rows in each
    as there are periods. *)
Theorem actual_frame_is_rectangular (label : string) (n : Z)
    (points : list (Z * dict Z)) :
  Forall (valid_point n) points ->
  exists df,
    actual_df label (arange n) points = Ok df /\
    time_name df = label /\ time df = arange n /\
    map fst (columns df) = stages /\
    Forall (fun kv => List.length (snd kv) = Z.to_nat n) (columns df).
Proof.
  intros Hvalid. unfold actual_df.
  destruct (valid_points_run n points _ Hvalid (zero_frame_shape (arange n)))
    as (cols' & Hrun & Hkeys & Hlen).
  rewrite Hrun. eexists. split; [reflexivity|]. cbn [time_name time columns].
  repeat split; try assumption. now rewrite arange_length in Hlen.
Qed.

(** X10: the actual series passes through the last data point: after
    well-formed data points, every stage holds at the period of the
    last one exactly the value the last one gives to the stage. *)
Theorem series_passes_through_last_point (label : string) (n t : Z)
    (values : dict Z) (earlier : list (Z * dict Z)) :
  Forall (valid_point n) earlier -> valid_point n (t, values) ->
  exists df,
    actual_df label (arange n) (earlier ++ [(t, values)]) = Ok df /\
    forall stage, In stage stages ->
      exists v col,
        dict_get values stage = Ok v /\
        dict_get (columns df) stage = Ok col /\
        nth_error col (Z.to_nat t) = Some (of_int v).
Proof.
  intros Hearlier Hlast.
  destruct (actual_df_last label n t values earlier Hearlier Hlast)
    as (v1 & v2 & v3 & v4 & v5 & H1 & H2 & H3 & H4 & H5 & E).
  rewrite E. eexists. split; [reflexivity|].
  destruct Hlast as [Ht _]. cbn [fst] in Ht.
  intros stage Hin. cbn [columns In stages] in *.
  repeat (destruct Hin as [<-|Hin];
          [do 2 eexists; split; [eassumption|]; split; [reflexivity|];
           apply ramp_then_flat_at_point; lia|]).
  contradiction.
Qed.

(** X11: a data point whose period lies beyond the axis makes the
    masked assignment raise ValueError: there are more values in its
    ramp than periods to take them.  The well-formed points before it
    do not change that, nor the points after it. *)
Theorem point_beyond_axis_raises (label : string) (n t : Z) (values : dict Z)
    (earlier later : list (Z * dict Z)) :
  Forall (valid_point n) earlier ->
  1 <= n <= t -> complete values = true ->
  actual_df label (arange n) (earlier ++ (t, values) :: later) = Raise ValueError.
Proof.
  intros Hearlier Ht Hall. unfold actual_df.
  destruct (valid_points_run n earlier _ Hearlier (zero_frame_shape (arange n)))
    as (cols' & Hrun & Hshape).
  rewrite foldM_app, Hrun. cbn [bind foldM].
  rewrite apply_point_all by exact Hshape.
  destruct (complete_inv values Hall "Expression of Interest"%string) as [v Hv];
    [cbn; tauto|].
  unfold point_columns. cbn [mapM stages]. unfold point_column. rewrite Hv. cbn [bind].
  replace (0 <? t) with true by (symmetry; apply Z.ltb_lt; lia).
  rewrite linspace_ok by lia. cbn [bind]. unfold loc_set_list.
  rewrite mask_all by lia. rewrite count_all_true, samples_length.
  replace (Nat.eqb (Z.to_nat n) (Z.to_nat (t + 1))) with false
    by (symmetry; apply Nat.eqb_neq; lia).
  reflexivity.
Qed.

(** X12: a data point on the axis that lacks the value of a stage makes
    the lookup of that value raise KeyError, whatever well-formed
    points come before it and whatever comes after it. *)
Theorem missing_value_raises (label : string) (n t : Z) (values : dict Z)
    (earlier later : list (Z * dict Z)) :
  Forall (valid_point n) earlier ->
  0 <= t < n -> complete values = false ->
  actual_df label (arange n) (earlier ++ (t, values) :: later) = Raise KeyError.
Proof.
  intros Hearlier Ht Hmiss. unfold actual_df.
  destruct (valid_points_run n earlier _ Hearlier (zero_frame_shape (arange n)))
    as (cols' & Hrun & Hshape).
  rewrite foldM_app, Hrun. cbn [bind foldM].
  rewrite apply_point_all by exact Hshape.
  unfold point_columns. cbn [mapM stages].
  unfold complete in Hmiss. cbn [forallb stages] in Hmiss.
  repeat match goal with
         | |- context [point_column (arange n) (t, values) ?s] =>
             let E := fresh "E" in
             destruct (dict_get values s) as [?v|?e] eqn:E;
             [rewrite (point_column_valid n t values s _ Ht E); cbn [bind]
             |unfold point_column; rewrite E; cbn [bind];
              now rewrite (dict_get_raises _ _ _ E)]
         end.
  cbn in Hmiss. discriminate Hmiss.
Qed.

End ActualFrame.

Lemma actual_frame_is_rectangular_witness :
  exists df,
    actual_df (F:=spec_float) "Week" (arange 10) [(7, same_value 3); (2, same_value 9)] = Ok df /\
    time_name df = "Week"%string /\ time df = arange 10 /\
    map fst (columns df) = stages /\
    Forall (fun kv => List.length (snd kv) = Z.to_nat 10) (columns df).
Proof.
  apply (actual_frame_is_rectangular (F:=spec_float) "Week" 10 [(7, same_value 3); (2, same_value 9)]).
  repeat constructor; cbn; lia.
Defined.

Lemma series_passes_through_last_point_witness :
  exists df,
    actual_df (F:=spec_float) "Week" (arange 10) ([(7, same_value 3)] ++ [(2, same_value 9)]) = Ok df /\
    forall stage, In stage stages ->
      exists v col,
        dict_get (same_value 9) stage = Ok v /\
        dict_get (columns df) stage = Ok col /\
        nth_error col (Z.to_nat 2) = Some (of_int v).
Proof.
  apply (series_passes_through_last_point (F:=spec_float) "Week" 10 2 (same_value 9) [(7, same_value 3)]).
  - repeat constructor; cbn; lia.
  - split; [cbn; lia|reflexivity].
Defined.

Lemma point_beyond_axis_raises_witness :
  actual_df (F:=spec_float) "Week" (arange 10)
    ([(7, same_value 3)] ++ (10, same_value 9) :: [(2, same_value 1)]) = Raise ValueError.
Proof.
  apply (point_beyond_axis_raises (F:=spec_float) "Week" 10 10 (same_value 9)
           [(7, same_value 3)] [(2, same_value 1)]).
  - repeat constructor; cbn; lia.
  - lia.
  - reflexivity.
Defined.

Lemma missing_value_raises_witness :
  actual_df (F:=spec_float) "Week" (arange 10)
    ([(7, same_value 3)] ++ (4, [("Wins"%string, 2)]) :: []) = Raise KeyError.
Proof.
  apply (missing_value_raises (F:=spec_float) "Week" 10 4 [("Wins"%string, 2)]
           [(7, same_value 3)] []).
  - repeat constructor; cbn; lia.
  - lia.
  - reflexivity.
Defined.

(** ** The actual series in exact arithmetic *)

Section IdealActual.
Local Open Scope Q_scope.






End IdealActual.


(** * The chart *)

Lemma foldM_raises {A B : Type} (f : B -> A -> result B) (P : exception -> Prop) :
  (forall b a e, f b a = Raise e -> P e) ->
  forall l b e, foldM f l b = Raise e -> P e.
Proof.
  intros Hf l. induction l as [|a l IH]; intros b e; cbn [foldM]; [discriminate|].
  destruct (f b a) as [b'|e'] eqn:E; cbn [bind].
  - apply IH.
  - intros [= <-]. now apply (Hf b a).
Qed.

Lemma dict_get_present {V : Type} (d : dict V) (k : string) :
  existsb (fun kv => String.eqb (fst kv) k) d = true <-> exists v, dict_get d k = Ok v.
Proof.
  induction d as [|[k' v] d IH]; cbn [existsb dict_get fst].
  - split; [discriminate|intros [v Hv]; discriminate].
  - destruct (String.eqb k' k); cbn [orb]; [|exact IH].
    split; [now exists v|reflexivity].
Qed.

Section ChartProperties.

Context {F : Type} `{Float64 F}.

Lemma stage_frame_inv (df : DataFrame F) :
  stage_frame df ->
  exists e1 e2 e3 e4 e5,
    columns df = [("Expression of Interest", e1); ("Conversations", e2);
                  ("Deep Conversations", e3); ("Proposals", e4); ("Wins", e5)]%string /\
    forall stage, In stage stages -> String.eqb stage (time_name df) = false.
Proof.
  intros [Hkeys Hname]. unfold stages in Hkeys.
  destruct (columns df) as [|[? ?] cols]; [discriminate|].
  do 4 (destruct cols as [|[? ?] cols]; [discriminate|]).
  destruct cols; [|discriminate]. cbn [map fst] in Hkeys.
  injection Hkeys as -> -> -> -> ->.
  do 5 eexists. split; [reflexivity|].
  intros stage Hin. apply String.eqb_neq. intros ->. contradiction.
Qed.

Lemma frame_get_raises (df : DataFrame F) (name : string) (e : exception) :
  frame_get df name = Raise e -> e = KeyError.
Proof.
  unfold frame_get. destruct (String.eqb name (time_name df)); [discriminate|].
  destruct (dict_get (columns df) name) eqn:E; cbn [bind]; [discriminate|].
  intros [= <-]. now apply dict_get_raises in E.
Qed.

(** A frame gives the columns it has, and only those. *)
Lemma frame_get_has (df : DataFrame F) (name : string) :
  frame_has df name = true <-> exists c, frame_get df name = Ok c.
Proof.
  unfold frame_has, frame_get.
  destruct (String.eqb name (time_name df)); cbn [orb].
  - split; [now eexists|reflexivity].
  - rewrite dict_get_present. split.
    + intros [v ->]. now eexists.
    + intros [c Hc]. destruct (dict_get (columns df) name); [now eexists|discriminate].
Qed.

Lemma frame_get_time (df : DataFrame F) :
  frame_get df (time_name df) = Ok (IntColumn (time df)).
Proof. unfold frame_get. now rewrite String.eqb_refl. Qed.

Lemma add_stage_raises (df : DataFrame F) (time_label : string)
    (actual : option (DataFrame F)) (traces : list (Scatter F)) (stage : string)
    (e : exception) :
  add_stage df time_label actual traces stage = Raise e -> e = KeyError.
Proof.
  unfold add_stage, planned_trace, actual_trace.
  destruct (dict_get color_map stage) eqn:Ec; cbn [bind];
    [|intros [= <-]; now apply dict_get_raises in Ec].
  destruct (frame_get df time_label) eqn:Ex; cbn [bind];
    [|intros [= <-]; now apply frame_get_raises in Ex].
  destruct (frame_get df stage) eqn:Ey; cbn [bind];
    [|intros [= <-]; now apply frame_get_raises in Ey].
  destruct actual as [adf|]; [|discriminate].
  destruct (frame_has adf stage); [|discriminate].
  destruct (frame_get adf time_label) eqn:Eax; cbn [bind];
    [|intros [= <-]; now apply frame_get_raises in Eax].
  destruct (frame_get adf stage) eqn:Eay; cbn [bind];
    [discriminate|intros [= <-]; now apply frame_get_raises in Eay].
Qed.

(** A stage is only drawn from a frame that has its column and the
    time column. *)
Lemma add_stage_needs (df : DataFrame F) (time_label : string)
    (actual : option (DataFrame F)) (traces traces' : list (Scatter F)) (stage : string) :
  add_stage df time_label actual traces stage = Ok traces' ->
  frame_has df time_label = true /\ frame_has df stage = true.
Proof.
  unfold add_stage, planned_trace.
  destruct (dict_get color_map stage); cbn [bind]; [|discriminate].
  destruct (frame_get df time_label) eqn:Ex; cbn [bind]; [|discriminate].
  destruct (frame_get df stage) eqn:Ey; cbn [bind]; [|discriminate].
  intros _. split; apply frame_get_has; eexists; eassumption.
Qed.

Lemma foldM_needs (df : DataFrame F) (time_label : string)
    (actual : option (DataFrame F)) (l : list string) :
  forall traces traces',
    foldM (add_stage df time_label actual) l traces = Ok traces' ->
    forall stage, In stage l ->
      frame_has df time_label = true /\ frame_has df stage = true.
Proof.
  induction l as [|s l IH]; intros traces traces' Hrun stage Hin; [contradiction|].
  cbn [foldM] in Hrun.
  destruct (add_stage df time_label actual traces s) as [t1|e] eqn:E; [|discriminate].
  cbn [bind] in Hrun. destruct Hin as [<-|Hin].
  - now apply add_stage_needs in E.
  - now apply (IH t1 traces').
Qed.

(** X14: the chart fails in one way only, with KeyError, and it does
    so whenever the planned frame lacks the time column or the column
    of a stage. *)
Theorem chart_needs_every_column (df : DataFrame F) (time_label : string)
    (actual : option (DataFrame F)) :
  (forall e, plot_funnel_comparison df time_label actual = Raise e -> e = KeyError) /\
  (forall stage, In stage stages ->
     frame_has df time_label = false \/ frame_has df stage = false ->
     plot_funnel_comparison df time_label actual = Raise KeyError).
Proof.
  assert (Honly : forall e,
             plot_funnel_comparison df time_label actual = Raise e -> e = KeyError).
  { intros e. unfold plot_funnel_comparison.
    destruct (foldM _ stages []) as [traces|e'] eqn:E; cbn [bind]; [discriminate|].
    intros [= <-].
    exact (foldM_raises _ (fun x => x = KeyError)
             (fun b a e0 => add_stage_raises df time_label actual b a e0) stages [] e' E). }
  split; [exact Honly|].
  intros stage Hin Hmiss.
  destruct (plot_funnel_comparison df time_label actual) as [fig|e] eqn:E.
  - unfold plot_funnel_comparison in E.
    destruct (foldM _ stages []) as [traces|e'] eqn:Erun; [|discriminate].
    destruct (foldM_needs df time_label actual stages [] traces Erun stage Hin) as [Ht Hs].
    destruct Hmiss as [Hmiss|Hmiss]; congruence.
  - now rewrite (Honly e eq_refl).
Qed.

End ChartProperties.

Lemma chart_needs_every_column_witness :
  plot_funnel_comparison (F:=spec_float)
    {| time_name := "Week"; time := [0; 1]; columns := [("Wins"%string, [of_int 0; of_int 4])] |}
    "Week" None = Raise KeyError.
Proof.
  apply (proj2 (chart_needs_every_column (F:=spec_float) _ "Week" None) "Proposals"%string).
  - cbn. tauto.
  - right. reflexivity.
Defined.

Section ChartTraces.

Context {F : Type} `{Float64 F}.

Lemma frame_get_stage (df : DataFrame F) (stage : string) (col : list F) :
  stage_frame df -> In stage stages ->
  dict_get (columns df) stage = Ok col ->
  frame_get df stage = Ok (FloatColumn col).
Proof.
  intros Hdf Hin Hcol.
  destruct (stage_frame_inv df Hdf) as (e1 & e2 & e3 & e4 & e5 & _ & Hne).
  unfold frame_get. now rewrite (Hne stage Hin), Hcol.
Qed.

(** One stage of the loop on a frame of stages: the planned trace, then
    the actual trace if the actual frame has the stage. *)
Lemma add_stage_traces (df : DataFrame F) (actual : option (DataFrame F))
    (traces : list (Scatter F)) (stage : string) (col : list F) (color : string) :
  stage_frame df -> In stage stages ->
  dict_get (columns df) stage = Ok col ->
  dict_get color_map stage = Ok color ->
  (forall adf, actual = Some adf -> time_name adf = time_name df) ->
  exists extra,
    add_stage df (time_name df) actual traces stage =
      Ok (traces ++
          {| trace_x := IntColumn (time df); trace_y := FloatColumn col;
             trace_mode := "lines"; trace_name := "Planned - " ++ stage;
             line_color := color; line_dash := "dash"; line_width := 3;
             trace_marker := None; trace_hoverinfo := "x+y" |} :: extra) /\
    match actual with
    | None => extra = []
    | Some adf =>
        if frame_has adf stage
        then exists c,
               frame_get adf stage = Ok c /\
               extra = [{| trace_x := IntColumn (time adf); trace_y := c;
                           trace_mode := "lines+markers";
                           trace_name := "Actual - " ++ stage;
                           line_color := color; line_dash := "solid"; line_width := 4;
                           trace_marker := Some (8, "circle-open"%string);
                           trace_hoverinfo := "x+y" |}]
        else extra = []
    end.
Proof.
  intros Hdf Hin Hcol Hcolor Hname.
  unfold add_stage, planned_trace, actual_trace.
  rewrite Hcolor, frame_get_time, (frame_get_stage df stage col Hdf Hin Hcol).
  cbn [bind]. cbv zeta. destruct actual as [adf|].
  - rewrite <- (Hname adf eq_refl), frame_get_time.
    destruct (frame_has adf stage) eqn:Ehas.
    + apply frame_get_has in Ehas as [c Hc]. rewrite Hc. cbn [bind].
      rewrite <- app_assoc. eexists. split; [reflexivity|]. now exists c.
    + now exists [].
  - now exists [].
Qed.

(** X15: called without an actual frame on a frame of stages, the chart
    has one trace per stage, in the order of the stages: the planned
    series of the stage over the time column, dashed, in the colour of
    the stage; and the x axis is titled with the time label. *)
Theorem chart_of_plan_alone (df : DataFrame F) :
  stage_frame df ->
  exists fig,
    plot_funnel_comparison df (time_name df) None = Ok fig /\
    xaxis_title (fig_layout fig) = time_name df /\
    List.length (fig_data fig) = 5%nat /\
    forall k stage, nth_error stages k = Some stage ->
      exists col color,
        dict_get (columns df) stage = Ok col /\
        dict_get color_map stage = Ok color /\
        nth_error (fig_data fig) k =
          Some {| trace_x := IntColumn (time df); trace_y := FloatColumn col;
                  trace_mode := "lines"; trace_name := "Planned - " ++ stage;
                  line_color := color; line_dash := "dash"; line_width := 3;
                  trace_marker := None; trace_hoverinfo := "x+y" |}.
Proof.
  intros Hdf.
  destruct (stage_frame_inv df Hdf) as (e1 & e2 & e3 & e4 & e5 & Hcols & _).
  assert (Hget : forall stage col,
             dict_get [("Expression of Interest", e1); ("Conversations", e2);
                       ("Deep Conversations", e3); ("Proposals", e4);
                       ("Wins", e5)]%string stage = Ok col ->
             dict_get (columns df) stage = Ok col) by now rewrite Hcols.
  unfold plot_funnel_comparison. cbn [foldM stages].
  repeat match goal with
         | |- context [add_stage df (time_name df) None ?traces ?stage] =>
             let E := fresh "E" in
             edestruct (add_stage_traces df None traces stage) as (? & E & ->);
             [exact Hdf|cbn; tauto|apply Hget; reflexivity|reflexivity|discriminate|];
             rewrite E; cbn [bind app]
         end.
  eexists. split; [reflexivity|]. split; [reflexivity|]. split; [reflexivity|].
  intros k stage Hk.
  destruct (stage_at k stage Hk) as [[-> ->]|[[-> ->]|[[-> ->]|[[-> ->]|[-> ->]]]]];
    do 2 eexists; (split; [apply Hget; reflexivity|]); split; reflexivity.
Qed.

(** X16: called with an actual frame of stages on the same time
    column, the chart has two traces per stage, in the order of the
    stages: the planned series, dashed, then the actual series, solid
    with markers, both in the colour of the stage. *)
Theorem chart_of_plan_and_actual (df adf : DataFrame F) :
  stage_frame df -> stage_frame adf -> time_name adf = time_name df ->
  exists fig,
    plot_funnel_comparison df (time_name df) (Some adf) = Ok fig /\
    List.length (fig_data fig) = 10%nat /\
    forall k stage, nth_error stages k = Some stage ->
      exists col acol color,
        dict_get (columns df) stage = Ok col /\
        dict_get (columns adf) stage = Ok acol /\
        dict_get color_map stage = Ok color /\
        nth_error (fig_data fig) (2 * k) =
          Some {| trace_x := IntColumn (time df); trace_y := FloatColumn col;
                  trace_mode := "lines"; trace_name := "Planned - " ++ stage;
                  line_color := color; line_dash := "dash"; line_width := 3;
                  trace_marker := None; trace_hoverinfo := "x+y" |} /\
        nth_error (fig_data fig) (2 * k + 1) =
          Some {| trace_x := IntColumn (time adf); trace_y := FloatColumn acol;
                  trace_mode := "lines+markers"; trace_name := "Actual - " ++ stage;
                  line_color := color; line_dash := "solid"; line_width := 4;
                  trace_marker := Some (8, "circle-open"%string);
                  trace_hoverinfo := "x+y" |}.
Proof.
  intros Hdf Hadf Hname.
  destruct (stage_frame_inv df Hdf) as (e1 & e2 & e3 & e4 & e5 & Hcols & _).
  destruct (stage_frame_inv adf Hadf) as (a1 & a2 & a3 & a4 & a5 & Hacols & _).
  assert (Hget : forall stage col,
             dict_get [("Expression of Interest", e1); ("Conversations", e2);
                       ("Deep Conversations", e3); ("Proposals", e4);
                       ("Wins", e5)]%string stage = Ok col ->
             dict_get (columns df) stage = Ok col) by now rewrite Hcols.
  assert (Haget : forall stage col,
             dict_get [("Expression of Interest", a1); ("Conversations", a2);
                       ("Deep Conversations", a3); ("Proposals", a4);
                       ("Wins", a5)]%string stage = Ok col ->
             dict_get (columns adf) stage = Ok col) by now rewrite Hacols.
  assert (Hhas : forall stage col,
             In stage stages -> dict_get (columns adf) stage = Ok col ->
             frame_has adf stage = true /\ frame_get adf stage = Ok (FloatColumn col)).
  { intros stage col Hin Hcol.
    pose proof (frame_get_stage adf stage col Hadf Hin Hcol) as Hg.
    split; [apply frame_get_has; eexists; exact Hg|exact Hg]. }
  unfold plot_funnel_comparison. cbn [foldM stages].
  repeat match goal with
         | |- context [add_stage df (time_name df) (Some adf) ?traces ?stage] =>
             let E := fresh "E" in
             let X := fresh "X" in
             edestruct (add_stage_traces df (Some adf) traces stage) as (? & E & X);
             [exact Hdf|cbn; tauto|apply Hget; reflexivity|reflexivity
             |now intros ? [= <-]|];
             edestruct (Hhas stage) as [Ehas Eget];
             [cbn; tauto|apply Haget; reflexivity|];
             rewrite Ehas in X; destruct X as (? & X & ->);
             rewrite Eget in X; injection X as <-;
             rewrite E; cbn [bind app]; clear E Ehas Eget
         end.
  eexists. split; [reflexivity|]. split; [reflexivity|].
  intros k stage Hk.
  destruct (stage_at k stage Hk) as [[-> ->]|[[-> ->]|[[-> ->]|[[-> ->]|[-> ->]]]]];
    do 3 eexists; (split; [apply Hget; reflexivity|]);
    (split; [apply Haget; reflexivity|]); (split; [reflexivity|]); split; reflexivity.
Qed.


End ChartTraces.

Lemma chart_of_plan_alone_witness :
  exists df label fig,
    create_funnel_plan "weekly" 5 4 half64 = Ok (df, label) /\
    plot_funnel_comparison df (time_name df) None = Ok fig /\
    List.length (fig_data fig) = 5%nat.
Proof.
  destruct (create_funnel_plan "weekly" 5 4 half64) as [[df label]|e] eqn:E;
    [|vm_compute in E; discriminate E].
  vm_compute in E. injection E as <- <-.
  edestruct (chart_of_plan_alone (F:=spec_float)) as (fig & Hfig & _ & Hlen & _);
    [|do 3 eexists; split; [reflexivity|split; [exact Hfig|exact Hlen]]].
  split; [reflexivity|]. cbn. intuition discriminate.
Defined.

Lemma chart_of_plan_and_actual_witness :
  exists fig,
    plot_funnel_comparison (F:=spec_float)
      {| time_name := "Day"; time := [0; 1];
         columns := map (fun stage => (stage, [of_int 0; of_int 6])) stages |}
      "Day"
      (Some {| time_name := "Day"; time := [0; 1];
               columns := map (fun stage => (stage, [of_int 5; of_int 5])) stages |})
    = Ok fig /\
    List.length (fig_data fig) = 10%nat.
Proof.
  edestruct (chart_of_plan_and_actual (F:=spec_float)
               {| time_name := "Day"; time := [0; 1];
                  columns := map (fun stage => (stage, [of_int 0; of_int 6])) stages |}
               {| time_name := "Day"; time := [0; 1];
                  columns := map (fun stage => (stage, [of_int 5; of_int 5])) stages |})
    as (fig & Hfig & Hlen & _).
  - split; [reflexivity|]. cbn. intuition discriminate.
  - split; [reflexivity|]. cbn. intuition discriminate.
  - reflexivity.
  - exists fig. split; [exact Hfig|exact Hlen].
Defined.


(** * The table *)

Section TableProperties.

Context {F : Type} `{Float64 F} `{Rint F}.

(** X18: the table of a planned frame and an actual frame of stages,
    under the label Week or Day: first the time column, then for every
    stage, in the order of the stages, the planned column and the
    actual column, each entry rounded to one decimal and nothing else
    changed. *)
Theorem table_of_plan_and_actual (df adf : DataFrame F) :
  stage_frame df -> stage_frame adf ->
  time_name df = "Week"%string \/ time_name df = "Day"%string ->
  exists table,
    combined df adf (time_name df) = Ok table /\
    map fst table =
      time_name df ::
      flat_map (fun stage => ["Planned - " ++ stage; "Actual - " ++ stage])%string stages /\
    dict_get table (time_name df) = Ok (IntColumn (time df)) /\
    forall stage, In stage stages ->
      exists p a,
        dict_get (columns df) stage = Ok p /\
        dict_get (columns adf) stage = Ok a /\
        dict_get table ("Planned - " ++ stage) = Ok (FloatColumn (map round1 p)) /\
        dict_get table ("Actual - " ++ stage) = Ok (FloatColumn (map round1 a)).
Proof.
  intros Hdf Hadf Hlabel.
  destruct (stage_frame_inv df Hdf) as (e1 & e2 & e3 & e4 & e5 & Hcols & _).
  destruct (stage_frame_inv adf Hadf) as (a1 & a2 & a3 & a4 & a5 & Hacols & _).
  assert (Hp : forall stage col,
             In stage stages ->
             dict_get [("Expression of Interest", e1); ("Conversations", e2);
                       ("Deep Conversations", e3); ("Proposals", e4);
                       ("Wins", e5)]%string stage = Ok col ->
             dict_get (columns df) stage = Ok col /\
             frame_get df stage = Ok (FloatColumn col)).
  { intros stage col Hin Hcol. rewrite <- Hcols in Hcol.
    split; [exact Hcol|now apply frame_get_stage]. }
  assert (Ha : forall stage col,
             In stage stages ->
             dict_get [("Expression of Interest", a1); ("Conversations", a2);
                       ("Deep Conversations", a3); ("Proposals", a4);
                       ("Wins", a5)]%string stage = Ok col ->
             dict_get (columns adf) stage = Ok col /\
             frame_get adf stage = Ok (FloatColumn col)).
  { intros stage col Hin Hcol. rewrite <- Hacols in Hcol.
    split; [exact Hcol|now apply frame_get_stage]. }
  unfold combined. rewrite frame_get_time. cbn [bind foldM stages]. unfold add_pair.
  repeat match goal with
         | |- context [frame_get df ?stage] =>
             let E := fresh "E" in
             edestruct (Hp stage) as [_ E]; [cbn; tauto|reflexivity|];
             rewrite E; clear E; cbn [bind series_round1]
         | |- context [frame_get adf ?stage] =>
             let E := fresh "E" in
             edestruct (Ha stage) as [_ E]; [cbn; tauto|reflexivity|];
             rewrite E; clear E; cbn [bind series_round1]
         end.
  destruct Hlabel as [-> | ->];
    (eexists; split; [reflexivity|]; split; [reflexivity|]; split; [reflexivity|];
     intros stage Hin; cbn [In stages] in Hin;
     repeat (destruct Hin as [<-|Hin];
             [do 2 eexists;
              split; [eapply Hp; [cbn; tauto|reflexivity]|];
              split; [eapply Ha; [cbn; tauto|reflexivity]|];
              split; reflexivity|]);
     contradiction).
Qed.

End TableProperties.

Lemma table_of_plan_and_actual_witness :
  exists table,
    combined (F:=spec_float)
      {| time_name := "Day"; time := [0; 1];
         columns := map (fun stage => (stage, [of_int 0; of_int 6])) stages |}
      {| time_name := "Day"; time := [0; 1];
         columns := map (fun stage => (stage, [of_int 5; of_int 5])) stages |}
      "Day"
    = Ok table /\
    List.length (map fst table) = 11%nat.
Proof.
  edestruct (table_of_plan_and_actual (F:=spec_float)
               {| time_name := "Day"; time := [0; 1];
                  columns := map (fun stage => (stage, [of_int 0; of_int 6])) stages |}
               {| time_name := "Day"; time := [0; 1];
                  columns := map (fun stage => (stage, [of_int 5; of_int 5])) stages |})
    as (table & Htable & Hkeys & _).
  - split; [reflexivity|]. cbn. intuition discriminate.
  - split; [reflexivity|]. cbn. intuition discriminate.
  - right. reflexivity.
  - exists table. split; [exact Htable|]. rewrite Hkeys. reflexivity.
Defined.

(** ** Rounding to one decimal in exact arithmetic *)

Section IdealDisplay.
Local Open Scope Q_scope.





End IdealDisplay.


(** * The data entry form and the page *)

Lemma read_points_map (num_points : Z) (slider : Z -> Z) (number_input : string -> Z -> Z) :
  read_points num_points slider number_input =
  map (fun i => (slider i, map (fun stage => (stage, number_input stage i)) stages))
    (arange num_points).
Proof. reflexivity. Qed.

Lemma form_values_complete (number_input : string -> Z -> Z) (i : Z) :
  complete (map (fun stage => (stage, number_input stage i)) stages) = true.
Proof. reflexivity. Qed.

Lemma read_points_valid (n num_points : Z) (slider : Z -> Z)
    (number_input : string -> Z -> Z) :
  (forall i, 0 <= i < num_points -> 0 <= slider i < n) ->
  Forall (valid_point n) (read_points num_points slider number_input).
Proof.
  intros Hslider. rewrite read_points_map. apply Forall_forall.
  intros point Hin. apply in_map_iff in Hin as (i & <- & Hi).
  unfold arange in Hi. apply in_map_iff in Hi as (k & <- & Hk). apply in_seq in Hk.
  split; [cbn [fst]; apply Hslider; lia|apply form_values_complete].
Qed.

(** X21: the form yields one data point per requested point, in order:
    point [i] has the period of its slider and, for every stage, the
    value of the number input of that stage; no stage is left out.
    When every slider is on the axis, every point is well-formed. *)
Theorem form_points (n num_points : Z) (slider : Z -> Z)
    (number_input : string -> Z -> Z) :
  List.length (read_points num_points slider number_input) = Z.to_nat num_points /\
  (forall i, 0 <= i < num_points ->
     exists values,
       nth_error (read_points num_points slider number_input) (Z.to_nat i)
         = Some (slider i, values) /\
       map fst values = stages /\
       forall stage, In stage stages -> dict_get values stage = Ok (number_input stage i)) /\
  ((forall i, 0 <= i < num_points -> 0 <= slider i < n) ->
   Forall (valid_point n) (read_points num_points slider number_input)).
Proof.
  split; [|split].
  - rewrite read_points_map, length_map. apply arange_length.
  - intros i Hi. rewrite read_points_map, nth_error_map.
    rewrite arange_nth_error by lia. cbn [option_map]. rewrite Z2Nat.id by lia.
    eexists. split; [reflexivity|]. split; [reflexivity|].
    intros stage Hin. cbn [In stages] in Hin.
    repeat (destruct Hin as [<-|Hin]; [reflexivity|]). contradiction.
  - apply read_points_valid.
Qed.

Lemma form_points_witness :
  Forall (valid_point 26) (read_points 3 (fun i => 5 * i) (fun _ i => i + 1)).
Proof.
  apply (proj2 (proj2 (form_points 26 3 (fun i => 5 * i) (fun _ i => i + 1)))).
  intros i Hi. lia.
Defined.

(** ** The page *)

Section PageProperties.

Context {F : Type} `{Float64 F} `{Rint F}.

(** The page after the planner: the three remaining calls of the script
    return on the frame of the plan and well-formed data points. *)
Lemma page_after_plan (duration : string) (n w : Z) (r : F)
    (points : list (Z * dict Z)) (df : DataFrame F) (label : string) :
  create_funnel_plan duration n w r = Ok (df, label) ->
  Forall (valid_point n) points ->
  exists adf fig table,
    actual_df label (time df) points = Ok adf /\
    plot_funnel_comparison df label (Some adf) = Ok fig /\
    combined df adf label = Ok table /\
    page duration n w r points = Ok (fig, table) /\
    List.length (fig_data fig) = 10%nat /\
    xaxis_title (fig_layout fig) = label /\
    List.length table = 11%nat.
Proof.
  intros Hplan Hpoints. unfold page. rewrite Hplan. cbn [bind].
  destruct (plan_frame_inv duration n w r df label Hplan)
    as (Hn & Hlabel & c0 & c1 & c2 & c3 & c4 & ->).
  cbn [time]. unfold actual_df.
  destruct (valid_points_run n points _ Hpoints (zero_frame_shape (arange n)))
    as (cols & Hrun & Hshape).
  rewrite Hrun. cbn [bind].
  destruct (frame_shape_inv _ _ Hshape) as (a1 & a2 & a3 & a4 & a5 & -> & _).
  destruct Hlabel as [-> | ->].
  - do 3 eexists. split; [reflexivity|].
    split; [vm_compute; reflexivity|].
    split; [vm_compute; reflexivity|].
    split; [vm_compute; reflexivity|].
    split; [reflexivity|]. split; reflexivity.
  - do 3 eexists. split; [reflexivity|].
    split; [vm_compute; reflexivity|].
    split; [vm_compute; reflexivity|].
    split; [vm_compute; reflexivity|].
    split; [reflexivity|]. split; reflexivity.
Qed.

(** X22: once the planner has returned, the page goes through for any
    well-formed data points, in every arithmetic: the actual frame is
    built on the time column of the plan, the chart has its ten traces
    under the label of the plan, and the table its eleven columns. *)
Theorem page_goes_through (duration : string) (n w : Z) (r : F)
    (points : list (Z * dict Z)) (df : DataFrame F) (label : string) :
  create_funnel_plan duration n w r = Ok (df, label) ->
  Forall (valid_point n) points ->
  exists adf fig table,
    actual_df label (time df) points = Ok adf /\
    plot_funnel_comparison df label (Some adf) = Ok fig /\
    combined df adf label = Ok table /\
    page duration n w r points = Ok (fig, table) /\
    List.length (fig_data fig) = 10%nat /\
    xaxis_title (fig_layout fig) = label /\
    List.length table = 11%nat.
Proof.
  exact (page_after_plan duration n w r points df label).
Qed.

End PageProperties.

Lemma page_goes_through_witness :
  exists fig table,
    page (F:=spec_float) "weekly" 5 4 half64 [(2, same_value 3)] = Ok (fig, table) /\
    List.length (fig_data fig) = 10%nat /\ List.length table = 11%nat.
Proof.
  destruct (create_funnel_plan "weekly" 5 4 half64) as [[df label]|e] eqn:E;
    [|vm_compute in E; discriminate E].
  destruct (page_goes_through (F:=spec_float) "weekly" 5 4 half64 [(2, same_value 3)] df label E)
    as (adf & fig & table & _ & _ & _ & Hpage & Hfig & _ & Htable).
  - repeat constructor; cbn; lia.
  - exists fig, table. split; [exact Hpage|]. split; assumption.
Defined.



